(** * Data Mesh Manager MCP server: the tool adapter layer

    A shallow embedding of [src/datamesh_manager_mcp/server.py]: the four
    tools [dataproduct_list], [dataproduct_search], [dataproduct_get] and
    [datacontract_get].

    - Python values decoded from JSON are the inductive [value]; a mapping
      is an association list in insertion order (Python dictionaries keep
      it, and the block serializer is called with [sort_keys=False]).
    - A Python expression that may raise is a [result]; [a or b] is
      [py_or], which only looks at [b] when [a] is falsy.
    - A tool is a computation in [tool]: the events it performs on its
      collaborators (logger, registry client, YAML serializer), in order,
      together with the value it returns or the exception it lets through.
    - The registry client and [yaml.dump] are collaborators whose code is
      not part of [server.py]; they are the variables of Section
      [Server].  Only instances of Python's [Exception] class are
      modelled as raised exceptions (the [except Exception] clauses of
      the tools are about those). *)

From Stdlib Require Import String Ascii List ZArith Bool Lia.
From Stdlib Require Import DecimalString SpecFloat.
From ExtLib Require Import Structures.Monad.
Import ListNotations.
Import MonadNotation.
Local Open Scope string_scope.
Local Open Scope monad_scope.

Set Warnings "-register-all".

(** ** Python values *)

Module Py.

Inductive value : Type :=
| VNone
| VBool (b : bool)
| VInt (n : Z)
| VFloat (x : spec_float)
| VStr (s : string)
| VList (items : list value)
| VDict (entries : list (string * value)).

(** [type(v).__name__] *)
Definition type_name (v : value) : string :=
  match v with
  | VNone => "NoneType"
  | VBool _ => "bool"
  | VInt _ => "int"
  | VFloat _ => "float"
  | VStr _ => "str"
  | VList _ => "list"
  | VDict _ => "dict"
  end.

(** [bool(v)]: what [not v] and [v or w] test. *)
Definition truthy (v : value) : bool :=
  match v with
  | VNone => false
  | VBool b => b
  | VInt n => negb (Z.eqb n 0)
  | VFloat (S754_zero _) => false
  | VFloat _ => true
  | VStr s => negb (String.eqb s EmptyString)
  | VList [] => false
  | VList (_ :: _) => true
  | VDict [] => false
  | VDict (_ :: _) => true
  end.

Definition is_dict (v : value) : bool :=
  match v with VDict _ => true | _ => false end.

Definition is_str (v : value) : bool :=
  match v with VStr _ => true | _ => false end.

(** [List[Dict[str, Any]]]: a list every element of which is a mapping
    (the keys of a [VDict] are strings by construction). *)
Definition is_list_of_dicts (v : value) : bool :=
  match v with VList items => forallb is_dict items | _ => false end.

(** ** Exceptions *)

Inductive exn_class : Type :=
| ValueError
| ValueErrorSubclass (name : string)
| AttributeError
| TypeError
| OtherException (name : string).

(** An exception instance: its class and [str(e)]. *)
Record exn : Type := Exn { exn_cls : exn_class; exn_str : string }.

(** What [except ValueError] matches. *)
Definition isinstance_ValueError (e : exn) : bool :=
  match exn_cls e with
  | ValueError | ValueErrorSubclass _ => true
  | _ => false
  end.

Inductive result (A : Type) : Type :=
| Ok (a : A)
| Raise (e : exn).

Arguments Ok {A} a.
Arguments Raise {A} e.

#[global] Instance Monad_result : Monad result :=
  {| ret := fun _ a => Ok a;
     bind := fun _ _ m k => match m with Ok a => k a | Raise e => Raise e end |}.

(** ** Operations on values *)

Fixpoint dict_lookup (entries : list (string * value)) (key : string)
  : option value :=
  match entries with
  | [] => None
  | (k, v) :: rest => if String.eqb k key then Some v else dict_lookup rest key
  end.

Definition no_attribute (v : value) (attr : string) : exn :=
  Exn AttributeError
      ("'" ++ type_name v ++ "' object has no attribute '" ++ attr ++ "'").

(** [v.get(key, default)]; only mappings have a [get] attribute. *)
Definition get (v : value) (key : string) (default : value) : result value :=
  match v with
  | VDict entries =>
      Ok (match dict_lookup entries key with Some x => x | None => default end)
  | _ => Raise (no_attribute v "get")
  end.

Fixpoint chars (s : string) : list value :=
  match s with
  | EmptyString => []
  | String c rest => VStr (String c EmptyString) :: chars rest
  end.

(** The elements a [for] loop over [v] visits. *)
Definition iter (v : value) : result (list value) :=
  match v with
  | VList items => Ok items
  | VDict entries => Ok (map (fun kv => VStr (fst kv)) entries)
  | VStr s => Ok (chars s)
  | _ => Raise (Exn TypeError ("'" ++ type_name v ++ "' object is not iterable"))
  end.

(** [a or b]: [b] is evaluated only when [a] is falsy. *)
Definition py_or (a b : result value) : result value :=
  match a with
  | Ok x => if truthy x then Ok x else b
  | Raise e => Raise e
  end.

(** The body of a [for] loop that appends [f x] for each [x], stopping at
    the first exception. *)
Fixpoint for_each {A B : Type} (f : A -> result B) (xs : list A)
  : result (list B) :=
  match xs with
  | [] => Ok []
  | x :: rest =>
      y <- f x ;;
      ys <- for_each f rest ;;
      ret (y :: ys)
  end.

(** [str(x)] inside an f-string, for an [Optional[str]] argument. *)
Definition fmt_opt (o : option string) : string :=
  match o with Some s => s | None => "None" end.

Definition fmt_nat (n : nat) : string :=
  NilEmpty.string_of_uint (Nat.to_uint n).

End Py.

Import Py.

Notation "a 'or' b" := (py_or a b) (at level 55, left associativity).
Abbreviation NA := (VStr "N/A").

(** ** Tools: events and outcome *)

Inductive event : Type :=
| Log_info (msg : string)
| Log_error (msg : string)
| Client_new
| Client_call (method : string)
| Yaml_dump (data : value).

Definition tool (A : Type) : Type := (list event * result A)%type.

#[global] Instance Monad_tool : Monad tool :=
  {| ret := fun _ a => ([], Ok a);
     bind := fun _ _ m k =>
       match m with
       | (t, Ok a) => let (t', r) := k a in ((t ++ t')%list, r)
       | (t, Raise e) => (t, Raise e)
       end |}.

Definition emit (ev : event) : tool unit := ([ev], Ok tt).

(** A call to a collaborator: the call is recorded, its outcome is the
    collaborator's. *)
Definition call {A : Type} (ev : event) (outcome : result A) : tool A :=
  ([ev], outcome).

Definition lift {A : Type} (r : result A) : tool A := ([], r).

(** [try: body / except ... as e: handler e] *)
Definition try_except {A : Type} (body : tool A) (handler : exn -> tool A)
  : tool A :=
  match body with
  | (t, Raise e) => let (t', r) := handler e in ((t ++ t')%list, r)
  | (t, Ok a) => (t, Ok a)
  end.

Definition events {A : Type} (m : tool A) : list event := fst m.
Definition outcome {A : Type} (m : tool A) : result A := snd m.

(** The registry client, [datameshmanager/datamesh_manager_client.py]:
    what each of its four requests returns or raises. *)
Record DataMeshManagerClient : Type := {
  get_data_products :
    option string -> option string -> option string -> result value;
  search : string -> string -> result value;
  get_data_product : string -> result value;
  get_data_contract : string -> result value
}.

(** ** The per-record dictionaries built in the loops *)

(** [dataproduct_list], lines 76-81. *)
Definition list_formatted_product (dp : value) : result value :=
  id <- get dp "id" NA ;;
  name <- get dp "title" VNone
          or (info <- get dp "info" (VDict []) ;; get info "title" VNone)
          or Ok NA ;;
  description <- get dp "description" VNone
          or (info <- get dp "info" (VDict []) ;; get info "description" VNone)
          or Ok NA ;;
  owner <- get dp "owner" VNone
          or (info <- get dp "info" (VDict []) ;; get info "owner" VNone)
          or Ok NA ;;
  ret (VDict [("id", id); ("name", name);
              ("description", description); ("owner", owner)]).

(** [dataproduct_search], lines 117-123. *)
Definition search_formatted_product (dp : value) : result value :=
  id <- get dp "id" NA ;;
  name <- get dp "name" VNone or Ok NA ;;
  description <- get dp "description" VNone
          or (info <- get dp "info" (VDict []) ;; get info "description" VNone)
          or Ok NA ;;
  ownerId <- get dp "ownerId" VNone or Ok NA ;;
  ownerName <- get dp "ownerName" VNone or Ok NA ;;
  ret (VDict [("id", id); ("name", name); ("description", description);
              ("ownerId", ownerId); ("ownerName", ownerName)]).

Definition error_record (msg : string) : value :=
  VList [VDict [("error", VStr msg)]].

(** ** The four tools *)

Section Server.

(** [DataMeshManagerClient()]: the client, or the exception its
    constructor raises. *)
Variable new_client : result DataMeshManagerClient.

(** [yaml.dump(data, default_flow_style=False, sort_keys=False)] *)
Variable yaml_dump : value -> result string.

Definition dataproduct_list (search_term archetype status : option string)
  : tool value :=
  emit (Log_info ("dataproduct_list called with search_term="
                  ++ fmt_opt search_term ++ ", archetype=" ++ fmt_opt archetype
                  ++ ", status=" ++ fmt_opt status)) ;;
  try_except
    (client <- call Client_new new_client ;;
     data_products <- call (Client_call "get_data_products")
                        (get_data_products client search_term archetype status) ;;
     if negb (truthy data_products) then
       emit (Log_info "dataproduct_list returned empty list") ;;
       ret (VList [])
     else
       formatted_products <-
         lift (dps <- iter data_products ;;
               for_each list_formatted_product dps) ;;
       emit (Log_info ("dataproduct_list returned "
                       ++ fmt_nat (length formatted_products)
                       ++ " data products")) ;;
       ret (VList formatted_products))
    (fun e =>
       if isinstance_ValueError e then
         emit (Log_error ("dataproduct_list ValueError: " ++ exn_str e)) ;;
         ret (error_record (exn_str e))
       else
         emit (Log_error ("dataproduct_list Exception: " ++ exn_str e)) ;;
         ret (error_record ("Error fetching data products: " ++ exn_str e))).

Definition dataproduct_search (search_term : string) : tool value :=
  emit (Log_info ("dataproduct_search called with search_term="
                  ++ search_term)) ;;
  try_except
    (client <- call Client_new new_client ;;
     search_results <- call (Client_call "search")
                         (search client search_term "DATA_PRODUCT") ;;
     data_products <- lift (get search_results "results" (VList [])) ;;
     if negb (truthy data_products) then
       emit (Log_info "dataproduct_search returned empty list") ;;
       ret (VList [])
     else
       formatted_products <-
         lift (dps <- iter data_products ;;
               for_each search_formatted_product dps) ;;
       emit (Log_info ("dataproduct_search returned "
                       ++ fmt_nat (length formatted_products)
                       ++ " data products")) ;;
       ret (VList formatted_products))
    (fun e =>
       if isinstance_ValueError e then
         emit (Log_error ("dataproduct_search ValueError: " ++ exn_str e)) ;;
         ret (error_record (exn_str e))
       else
         emit (Log_error ("dataproduct_search Exception: " ++ exn_str e)) ;;
         ret (error_record ("Error searching data products: " ++ exn_str e))).

Definition dataproduct_get (data_product_id : string) : tool value :=
  emit (Log_info ("dataproduct_get called with data_product_id="
                  ++ data_product_id)) ;;
  try_except
    (client <- call Client_new new_client ;;
     data_product <- call (Client_call "get_data_product")
                       (get_data_product client data_product_id) ;;
     if negb (truthy data_product) then
       emit (Log_info ("dataproduct_get: data product " ++ data_product_id
                       ++ " not found")) ;;
       ret (VStr "Data product not found")
     else
       yaml_data <- call (Yaml_dump data_product) (yaml_dump data_product) ;;
       emit (Log_info ("dataproduct_get successfully retrieved data product "
                       ++ data_product_id)) ;;
       ret (VStr yaml_data))
    (fun e =>
       if isinstance_ValueError e then
         emit (Log_error ("dataproduct_get ValueError: " ++ exn_str e)) ;;
         ret (VStr ("Error: " ++ exn_str e))
       else
         emit (Log_error ("dataproduct_get Exception: " ++ exn_str e)) ;;
         ret (VStr ("Error fetching data product: " ++ exn_str e))).

Definition datacontract_get (data_contract_id : string) : tool value :=
  emit (Log_info ("datacontract_get called with data_contract_id="
                  ++ data_contract_id)) ;;
  try_except
    (client <- call Client_new new_client ;;
     data_contract <- call (Client_call "get_data_contract")
                        (get_data_contract client data_contract_id) ;;
     if negb (truthy data_contract) then
       emit (Log_info ("datacontract_get: data contract " ++ data_contract_id
                       ++ " not found")) ;;
       ret (VStr "Data contract not found")
     else
       yaml_data <- call (Yaml_dump data_contract) (yaml_dump data_contract) ;;
       emit (Log_info ("datacontract_get successfully retrieved data contract "
                       ++ data_contract_id)) ;;
       ret (VStr yaml_data))
    (fun e =>
       if isinstance_ValueError e then
         emit (Log_error ("datacontract_get ValueError: " ++ exn_str e)) ;;
         ret (VStr ("Error: " ++ exn_str e))
       else
         emit (Log_error ("datacontract_get Exception: " ++ exn_str e)) ;;
         ret (VStr ("Error fetching data contract: " ++ exn_str e))).

End Server.

(** A client whose four requests all have the same outcome. *)
Definition constant_client (r : result value) : DataMeshManagerClient :=
  {| get_data_products := fun _ _ _ => r;
     search := fun _ _ => r;
     get_data_product := fun _ => r;
     get_data_contract := fun _ => r |}.

(** ** The field-resolution policy, as the specification words it

    [lookup_path v path] follows [path] through nested mappings;
    [first_nonempty v paths] is the first candidate that is present and
    non-empty (truthy), and the sentinel when there is none. *)

Fixpoint lookup_path (v : value) (path : list string) : option value :=
  match path with
  | [] => Some v
  | key :: rest =>
      match v with
      | VDict entries =>
          match dict_lookup entries key with
          | Some x => lookup_path x rest
          | None => None
          end
      | _ => None
      end
  end.

Fixpoint first_nonempty (v : value) (paths : list (list string)) : value :=
  match paths with
  | [] => NA
  | path :: rest =>
      match lookup_path v path with
      | Some x => if truthy x then x else first_nonempty v rest
      | None => first_nonempty v rest
      end
  end.

(** The claimed list record: every attribute, [id] included, resolved by
    the policy over its top-level key and then its [info.*] key. *)
Definition spec_list_record (dp : value) : value :=
  VDict [("id", first_nonempty dp [["id"]; ["info"; "id"]]);
         ("name", first_nonempty dp [["title"]; ["info"; "title"]]);
         ("description",
           first_nonempty dp [["description"]; ["info"; "description"]]);
         ("owner", first_nonempty dp [["owner"]; ["info"; "owner"]])].

(** What the loop of [dataproduct_list] computes for a record it
    normalizes: [id] is the value under the key whenever the key is there. *)
Definition present_or_NA (o : option value) : value :=
  match o with Some x => x | None => NA end.

Definition list_record (dp : value) : value :=
  VDict [("id", present_or_NA (lookup_path dp ["id"]));
         ("name", first_nonempty dp [["title"]; ["info"; "title"]]);
         ("description",
           first_nonempty dp [["description"]; ["info"; "description"]]);
         ("owner", first_nonempty dp [["owner"]; ["info"; "owner"]])].

Definition search_record (dp : value) : value :=
  VDict [("id", present_or_NA (lookup_path dp ["id"]));
         ("name", first_nonempty dp [["name"]]);
         ("description",
           first_nonempty dp [["description"]; ["info"; "description"]]);
         ("ownerId", first_nonempty dp [["ownerId"]]);
         ("ownerName", first_nonempty dp [["ownerName"]])].

(** ** When a record is normalized

    The nested [info] entry is consulted for an attribute exactly when the
    top-level value is missing or falsy; consulting it raises
    [AttributeError] unless it is absent or a mapping. *)

Definition falls_through (entries : list (string * value)) (key : string)
  : bool :=
  match dict_lookup entries key with
  | Some x => negb (truthy x)
  | None => true
  end.

Definition info_usable (entries : list (string * value)) : bool :=
  match dict_lookup entries "info" with
  | None | Some (VDict _) => true
  | Some _ => false
  end.

Definition list_normalizes (dp : value) : bool :=
  match dp with
  | VDict entries =>
      info_usable entries
      || negb (falls_through entries "title"
               || falls_through entries "description"
               || falls_through entries "owner")
  | _ => false
  end.

Definition search_normalizes (dp : value) : bool :=
  match dp with
  | VDict entries =>
      info_usable entries || negb (falls_through entries "description")
  | _ => false
  end.

(** The value on which [.get] fails when a record is not normalized. *)
Definition offending (dp : value) : value :=
  match dp with
  | VDict entries => present_or_NA (dict_lookup entries "info")
  | _ => dp
  end.

(** ** Vocabulary of the statements *)

(** How a tool renders the outcome of its [try] body. *)
Definition rendered (wrap : string -> value) (config_prefix prefix : string)
           (body : result value) : value :=
  match body with
  | Ok v => v
  | Raise e =>
      wrap ((if isinstance_ValueError e then config_prefix else prefix)
            ++ exn_str e)
  end.

(** The client fails with [e], at construction or in the request. *)
Definition client_raises (nc : result DataMeshManagerClient)
           (request : DataMeshManagerClient -> result value) (e : exn)
  : Prop :=
  nc = Raise e \/ exists c, nc = Ok c /\ request c = Raise e.

(** The record's value when it is present and truthy, else the sentinel. *)
Definition value_or_NA (o : option value) : value :=
  match o with
  | Some x => if truthy x then x else NA
  | None => NA
  end.

Definition owner_split (dp out : value) : Prop :=
  exists d fields,
    dp = VDict d /\ out = VDict fields
    /\ dict_lookup fields "ownerId" = Some (value_or_NA (dict_lookup d "ownerId"))
    /\ dict_lookup fields "ownerName"
       = Some (value_or_NA (dict_lookup d "ownerName"))
    /\ dict_lookup fields "owner" = None.

Definition error_message (prefix : string) (bad : value) : string :=
  prefix ++ exn_str (no_attribute (offending bad) "get").

(** An empty string under [key] does not reach the output field [field]:
    the nested candidate or the sentinel stands in its place. *)
Definition empty_string_replaced (d fields : list (string * value))
           (key field : string) : Prop :=
  dict_lookup d key = Some (VStr EmptyString) ->
  dict_lookup fields field = Some (first_nonempty (VDict d) [["info"; key]])
  /\ dict_lookup fields field <> Some (VStr EmptyString)
  /\ (dict_lookup d "info" = None -> dict_lookup fields field = Some NA).

(** Events by kind, and how many requests a trace holds. *)
Definition is_request (ev : event) : bool :=
  match ev with Client_call _ => true | _ => false end.

Definition is_dump (ev : event) : bool :=
  match ev with Yaml_dump _ => true | _ => false end.

Definition is_error_log (ev : event) : bool :=
  match ev with Log_error _ => true | _ => false end.

Definition requests (trace : list event) : nat :=
  length (filter is_request trace).

(** The keys of a mapping, in insertion order. *)
Definition keys (v : value) : list string :=
  match v with
  | VDict fields => map fst fields
  | _ => []
  end.

(** The text of the message an exception is rendered with. *)
Definition rendered_message (config_prefix prefix : string) (e : exn)
  : string :=
  (if isinstance_ValueError e then config_prefix else prefix) ++ exn_str e.

(** How the loop of [dataproduct_list] treats [id] and empty strings:
    [out] is the record built for the raw record [dp]. *)
Definition id_defaulted_on_presence (dp out : value) : Prop :=
  exists d fields,
    dp = VDict d /\ out = VDict fields
    /\ (forall x, dict_lookup d "id" = Some x ->
                  dict_lookup fields "id" = Some x)
    /\ (dict_lookup d "id" = Some (VStr EmptyString) ->
        dict_lookup fields "id" = Some (VStr EmptyString))
    /\ (dict_lookup d "id" = None -> dict_lookup fields "id" = Some NA)
    /\ empty_string_replaced d fields "title" "name"
    /\ empty_string_replaced d fields "description" "description"
    /\ empty_string_replaced d fields "owner" "owner".

(** Where the loop of [dataproduct_search] takes [name] and [id] from. *)
Definition name_and_id_from_top_level (dp out : value) : Prop :=
  exists d fields,
    dp = VDict d /\ out = VDict fields
    /\ dict_lookup fields "name" = Some (value_or_NA (dict_lookup d "name"))
    /\ dict_lookup fields "id" = Some (present_or_NA (dict_lookup d "id")).

(** ** Resolution of one attribute *)

Lemma top_level_field (d : list (string * value)) (k : string) :
  (get (VDict d) k VNone or Ok NA) = Ok (first_nonempty (VDict d) [[k]]).
Proof.
  unfold py_or, get, first_nonempty, lookup_path.
  destruct (dict_lookup d k) as [x|]; [destruct (truthy x)|]; reflexivity.
Qed.

(** The nested candidate alone: [dp.get("info", {}).get(k) or "N/A"]. *)
Lemma info_field (d : list (string * value)) (k : string) :
  ((info <- get (VDict d) "info" (VDict []) ;; get info k VNone) or Ok NA)
  = if info_usable d
    then Ok (first_nonempty (VDict d) [["info"; k]])
    else Raise (no_attribute (offending (VDict d)) "get").
Proof.
  unfold info_usable, offending, present_or_NA, py_or, get, first_nonempty,
    lookup_path.
  cbn [bind Monad_result].
  destruct (dict_lookup d "info") as [v|]; [|reflexivity].
  destruct v as [| | | | | |sub]; try reflexivity.
  destruct (dict_lookup sub k) as [y|]; [destruct (truthy y)|]; reflexivity.
Qed.

Lemma or_assoc (a b c : result value) : (a or b or c) = py_or a (py_or b c).
Proof.
  destruct a as [x|e]; cbn; [destruct (truthy x) eqn:Hx; cbn|].
  - now rewrite Hx.
  - reflexivity.
  - reflexivity.
Qed.

Lemma nested_field_ok (d : list (string * value)) (k : string) :
  info_usable d || negb (falls_through d k) = true ->
  (get (VDict d) k VNone
   or (info <- get (VDict d) "info" (VDict []) ;; get info k VNone)
   or Ok NA)
  = Ok (first_nonempty (VDict d) [[k]; ["info"; k]]).
Proof.
  intros H. rewrite or_assoc, info_field.
  unfold falls_through in H.
  unfold py_or at 1. unfold get.
  cbn [first_nonempty lookup_path].
  destruct (dict_lookup d k) as [x|]; [destruct (truthy x) eqn:Hx|].
  - reflexivity.
  - rewrite orb_false_r in H. now rewrite H.
  - rewrite orb_false_r in H. now rewrite H.
Qed.

Lemma nested_field_raise (d : list (string * value)) (k : string) :
  info_usable d = false -> falls_through d k = true ->
  (get (VDict d) k VNone
   or (info <- get (VDict d) "info" (VDict []) ;; get info k VNone)
   or Ok NA)
  = Raise (no_attribute (offending (VDict d)) "get").
Proof.
  intros Hi Hf. rewrite or_assoc, info_field, Hi.
  unfold falls_through in Hf. unfold py_or, get.
  destruct (dict_lookup d k) as [x|]; [|reflexivity].
  cbn. apply negb_true_iff in Hf. now rewrite Hf.
Qed.

(** ** The loop body, record by record *)

Lemma get_id (d : list (string * value)) :
  get (VDict d) "id" NA = Ok (present_or_NA (lookup_path (VDict d) ["id"])).
Proof.
  unfold get, lookup_path, present_or_NA.
  now destruct (dict_lookup d "id").
Qed.

Ltac usable_or_kept H :=
  match goal with
  | |- info_usable ?d || negb (falls_through ?d ?k) = true =>
      cbn [list_normalizes search_normalizes] in H;
      destruct (info_usable d); [reflexivity|];
      cbn in H |- *;
      repeat match type of H with
             | context [falls_through d ?k'] =>
                 destruct (falls_through d k'); cbn in H |- *
             end;
      congruence
  end.

Lemma list_formatted_product_ok (dp : value) :
  list_normalizes dp = true ->
  list_formatted_product dp = Ok (list_record dp).
Proof.
  destruct dp as [| | | | | |d]; try discriminate.
  intros H. unfold list_formatted_product.
  rewrite get_id.
  rewrite !nested_field_ok by usable_or_kept H.
  reflexivity.
Qed.

Lemma list_formatted_product_raise (dp : value) :
  list_normalizes dp = false ->
  list_formatted_product dp = Raise (no_attribute (offending dp) "get").
Proof.
  destruct dp as [| | | | | |d]; try reflexivity.
  cbn [list_normalizes]. intros H.
  apply orb_false_iff in H. destruct H as [Hi H].
  apply negb_false_iff in H.
  unfold list_formatted_product. rewrite get_id.
  destruct (falls_through d "title") eqn:Ht.
  { now rewrite (nested_field_raise d "title" Hi Ht). }
  rewrite (nested_field_ok d "title") by (rewrite Ht; apply orb_true_r).
  destruct (falls_through d "description") eqn:Hd.
  { now rewrite (nested_field_raise d "description" Hi Hd). }
  rewrite (nested_field_ok d "description") by (rewrite Hd; apply orb_true_r).
  cbn in H.
  now rewrite (nested_field_raise d "owner" Hi H).
Qed.

Lemma search_formatted_product_ok (dp : value) :
  search_normalizes dp = true ->
  search_formatted_product dp = Ok (search_record dp).
Proof.
  destruct dp as [| | | | | |d]; try discriminate.
  intros H. unfold search_formatted_product.
  rewrite get_id, !top_level_field.
  rewrite nested_field_ok by usable_or_kept H.
  reflexivity.
Qed.

Lemma search_formatted_product_raise (dp : value) :
  search_normalizes dp = false ->
  search_formatted_product dp = Raise (no_attribute (offending dp) "get").
Proof.
  destruct dp as [| | | | | |d]; try reflexivity.
  cbn [search_normalizes]. intros H.
  apply orb_false_iff in H. destruct H as [Hi H].
  apply negb_false_iff in H.
  unfold search_formatted_product.
  rewrite get_id, top_level_field.
  now rewrite (nested_field_raise d "description" Hi H).
Qed.

(** ** The loop *)

Lemma for_each_find {A B : Type} (f : A -> result B) (ok : A -> bool)
      (g : A -> B) (h : A -> exn) :
  (forall x, ok x = true -> f x = Ok (g x)) ->
  (forall x, ok x = false -> f x = Raise (h x)) ->
  forall xs,
    for_each f xs
    = match find (fun x => negb (ok x)) xs with
      | None => Ok (map g xs)
      | Some bad => Raise (h bad)
      end.
Proof.
  intros Hok Hbad xs. induction xs as [|x rest IH]; [reflexivity|].
  cbn [for_each find map]. destruct (ok x) eqn:Hx; cbn [negb].
  - rewrite (Hok x Hx), IH. cbn.
    now destruct (find (fun x0 => negb (ok x0)) rest).
  - now rewrite (Hbad x Hx).
Qed.

Lemma find_none_forallb {A : Type} (ok : A -> bool) (xs : list A) :
  forallb ok xs = true -> find (fun x => negb (ok x)) xs = None.
Proof.
  induction xs as [|x rest IH]; [reflexivity|].
  cbn. intros H. apply andb_true_iff in H. destruct H as [Hx Hr].
  rewrite Hx. cbn. auto.
Qed.

Lemma find_some_forallb {A : Type} (ok : A -> bool) (xs : list A) :
  forallb ok xs = false ->
  exists bad, find (fun x => negb (ok x)) xs = Some bad /\ In bad xs
              /\ ok bad = false.
Proof.
  induction xs as [|x rest IH]; [discriminate|].
  cbn. destruct (ok x) eqn:Hx; cbn.
  - intros H. destruct (IH H) as (bad & Hf & Hin & Hb). eauto.
  - intros _. exists x. auto.
Qed.

Lemma for_each_list_ok (dps : list value) :
  forallb list_normalizes dps = true ->
  for_each list_formatted_product dps = Ok (map list_record dps).
Proof.
  intros H.
  rewrite (for_each_find _ _ _ _ list_formatted_product_ok
                         list_formatted_product_raise).
  now rewrite find_none_forallb.
Qed.

Lemma for_each_search_ok (dps : list value) :
  forallb search_normalizes dps = true ->
  for_each search_formatted_product dps = Ok (map search_record dps).
Proof.
  intros H.
  rewrite (for_each_find _ _ _ _ search_formatted_product_ok
                         search_formatted_product_raise).
  now rewrite find_none_forallb.
Qed.

Lemma for_each_list_raise (dps : list value) :
  forallb list_normalizes dps = false ->
  exists bad, In bad dps /\ list_normalizes bad = false /\
    for_each list_formatted_product dps
    = Raise (no_attribute (offending bad) "get").
Proof.
  intros H. destruct (find_some_forallb _ _ H) as (bad & Hf & Hin & Hb).
  exists bad. repeat split; trivial.
  rewrite (for_each_find _ _ _ _ list_formatted_product_ok
                         list_formatted_product_raise).
  now rewrite Hf.
Qed.

Lemma for_each_search_raise (dps : list value) :
  forallb search_normalizes dps = false ->
  exists bad, In bad dps /\ search_normalizes bad = false /\
    for_each search_formatted_product dps
    = Raise (no_attribute (offending bad) "get").
Proof.
  intros H. destruct (find_some_forallb _ _ H) as (bad & Hf & Hin & Hb).
  exists bad. repeat split; trivial.
  rewrite (for_each_find _ _ _ _ search_formatted_product_ok
                         search_formatted_product_raise).
  now rewrite Hf.
Qed.

(** Every record the loops build is a mapping. *)
Lemma for_each_dicts (f : value -> result value) :
  (forall dp r, f dp = Ok r -> is_dict r = true) ->
  forall dps outs, for_each f dps = Ok outs -> forallb is_dict outs = true.
Proof.
  intros Hf dps. induction dps as [|dp rest IH]; cbn; intros outs H.
  - now inversion H.
  - destruct (f dp) as [r|e] eqn:Hr; [|discriminate].
    destruct (for_each f rest) as [rs|e]; [|discriminate].
    inversion H; subst. cbn. rewrite (Hf _ _ Hr). now apply IH.
Qed.

Lemma list_formatted_product_dict (dp r : value) :
  list_formatted_product dp = Ok r -> is_dict r = true.
Proof.
  destruct (list_normalizes dp) eqn:Hn.
  - rewrite (list_formatted_product_ok _ Hn). now intros [= <-].
  - now rewrite (list_formatted_product_raise _ Hn).
Qed.

Lemma search_formatted_product_dict (dp r : value) :
  search_formatted_product dp = Ok r -> is_dict r = true.
Proof.
  destruct (search_normalizes dp) eqn:Hn.
  - rewrite (search_formatted_product_ok _ Hn). now intros [= <-].
  - now rewrite (search_formatted_product_raise _ Hn).
Qed.

(** ** The tools seen from the tool host: outcome of [try]/[except] *)

Lemma dataproduct_list_outcome nc st ar s :
  outcome (dataproduct_list nc st ar s)
  = Ok (rendered error_record EmptyString "Error fetching data products: "
          (client <- nc ;;
           data_products <- get_data_products client st ar s ;;
           if truthy data_products then
             dps <- iter data_products ;;
             outs <- for_each list_formatted_product dps ;;
             ret (VList outs)
           else ret (VList []))).
Proof.
  unfold dataproduct_list, outcome, rendered.
  destruct nc as [c|e]; cbn.
  2: now destruct (isinstance_ValueError e).
  destruct (get_data_products c st ar s) as [v|e]; cbn.
  2: now destruct (isinstance_ValueError e).
  destruct (truthy v); cbn; [|reflexivity].
  destruct (iter v) as [dps|e]; cbn.
  2: now destruct (isinstance_ValueError e).
  destruct (for_each list_formatted_product dps) as [outs|e]; cbn.
  - reflexivity.
  - now destruct (isinstance_ValueError e).
Qed.

Lemma dataproduct_search_outcome nc term :
  outcome (dataproduct_search nc term)
  = Ok (rendered error_record EmptyString "Error searching data products: "
          (client <- nc ;;
           search_results <- search client term "DATA_PRODUCT" ;;
           data_products <- get search_results "results" (VList []) ;;
           if truthy data_products then
             dps <- iter data_products ;;
             outs <- for_each search_formatted_product dps ;;
             ret (VList outs)
           else ret (VList []))).
Proof.
  unfold dataproduct_search, outcome, rendered.
  destruct nc as [c|e]; cbn.
  2: now destruct (isinstance_ValueError e).
  destruct (search c term "DATA_PRODUCT") as [v|e]; cbn.
  2: now destruct (isinstance_ValueError e).
  destruct (get v "results" (VList [])) as [w|e]; cbn.
  2: now destruct (isinstance_ValueError e).
  destruct (truthy w); cbn; [|reflexivity].
  destruct (iter w) as [dps|e]; cbn.
  2: now destruct (isinstance_ValueError e).
  destruct (for_each search_formatted_product dps) as [outs|e]; cbn.
  - reflexivity.
  - now destruct (isinstance_ValueError e).
Qed.

Lemma dataproduct_get_outcome nc dump id :
  outcome (dataproduct_get nc dump id)
  = Ok (rendered VStr "Error: " "Error fetching data product: "
          (client <- nc ;;
           data_product <- get_data_product client id ;;
           if truthy data_product then
             yaml_data <- dump data_product ;;
             ret (VStr yaml_data)
           else ret (VStr "Data product not found"))).
Proof.
  unfold dataproduct_get, outcome, rendered.
  destruct nc as [c|e]; cbn.
  2: now destruct (isinstance_ValueError e).
  destruct (get_data_product c id) as [v|e]; cbn.
  2: now destruct (isinstance_ValueError e).
  destruct (truthy v); cbn; [|reflexivity].
  destruct (dump v) as [text|e]; cbn.
  - reflexivity.
  - now destruct (isinstance_ValueError e).
Qed.

Lemma datacontract_get_outcome nc dump id :
  outcome (datacontract_get nc dump id)
  = Ok (rendered VStr "Error: " "Error fetching data contract: "
          (client <- nc ;;
           data_contract <- get_data_contract client id ;;
           if truthy data_contract then
             yaml_data <- dump data_contract ;;
             ret (VStr yaml_data)
           else ret (VStr "Data contract not found"))).
Proof.
  unfold datacontract_get, outcome, rendered.
  destruct nc as [c|e]; cbn.
  2: now destruct (isinstance_ValueError e).
  destruct (get_data_contract c id) as [v|e]; cbn.
  2: now destruct (isinstance_ValueError e).
  destruct (truthy v); cbn; [|reflexivity].
  destruct (dump v) as [text|e]; cbn.
  - reflexivity.
  - now destruct (isinstance_ValueError e).
Qed.

(** The serializer is called at most once, on the client's result, and
    only when that result is truthy. *)
Lemma dataproduct_get_dumps nc dump id v :
  In (Yaml_dump v) (events (dataproduct_get nc dump id)) ->
  exists c, nc = Ok c /\ get_data_product c id = Ok v /\ truthy v = true.
Proof.
  unfold dataproduct_get, events.
  destruct nc as [c|e]; cbn.
  { destruct (get_data_product c id) as [w|e] eqn:Hc; cbn.
    - destruct (truthy w) eqn:Hw; cbn.
      + destruct (dump w) as [text|e]; cbn;
          [|destruct (isinstance_ValueError e); cbn];
          intuition (try discriminate);
          match goal with H : Yaml_dump _ = Yaml_dump _ |- _ =>
            injection H as <- end; eauto.
      + intuition discriminate.
    - destruct (isinstance_ValueError e); cbn; intuition discriminate. }
  destruct (isinstance_ValueError e); cbn; intuition discriminate.
Qed.

Lemma datacontract_get_dumps nc dump id v :
  In (Yaml_dump v) (events (datacontract_get nc dump id)) ->
  exists c, nc = Ok c /\ get_data_contract c id = Ok v /\ truthy v = true.
Proof.
  unfold datacontract_get, events.
  destruct nc as [c|e]; cbn.
  { destruct (get_data_contract c id) as [w|e] eqn:Hc; cbn.
    - destruct (truthy w) eqn:Hw; cbn.
      + destruct (dump w) as [text|e]; cbn;
          [|destruct (isinstance_ValueError e); cbn];
          intuition (try discriminate);
          match goal with H : Yaml_dump _ = Yaml_dump _ |- _ =>
            injection H as <- end; eauto.
      + intuition discriminate.
    - destruct (isinstance_ValueError e); cbn; intuition discriminate. }
  destruct (isinstance_ValueError e); cbn; intuition discriminate.
Qed.

(** ** The scenario of the specification *)

Example scenario_sales :
  outcome (dataproduct_list
             (Ok (constant_client (Ok (VList [VDict
                [("id", VStr "dp-1"); ("title", VStr "Sales Data");
                 ("description", VStr EmptyString); ("owner", VStr "team-a")]]))))
             (Some "sales") None None)
  = Ok (VList [VDict [("id", VStr "dp-1"); ("name", VStr "Sales Data");
                      ("description", NA); ("owner", VStr "team-a")]]).
Proof. reflexivity. Qed.

(** ** Field resolution in [dataproduct_list] *)

(** C1, as claimed, fails: a record whose [id] is the empty string has no
    present and non-empty [id] candidate, so the policy asks for the
    sentinel, but [dataproduct_list] returns the empty string. *)
Lemma list_empty_id_kept :
  let dp := VDict [("id", VStr EmptyString)] in
  let returned :=
    outcome (dataproduct_list (Ok (constant_client (Ok (VList [dp]))))
               None None None) in
  returned = Ok (VList [VDict [("id", VStr EmptyString); ("name", NA);
                               ("description", NA); ("owner", NA)]])
  /\ spec_list_record dp
     = VDict [("id", NA); ("name", NA); ("description", NA); ("owner", NA)]
  /\ returned <> Ok (VList [spec_list_record dp]).
Proof. cbv zeta. repeat split. cbn. discriminate. Qed.

(** C1, amended: when the client returns a sequence of records that are
    normalized ([list_normalizes]: a mapping whose [info] entry is absent
    or a mapping, or is never consulted), [dataproduct_list] returns for
    each of them the record [list_record]: [name], [description] and
    [owner] are the first present and non-empty (truthy) value among the
    top-level key and the [info.*] key, and ["N/A"] when there is none, an
    empty string counting as absent; [id] is the value under the [id] key
    when the key is present and ["N/A"] when it is absent. *)
Theorem list_field_resolution
        (c : DataMeshManagerClient) (st ar s : option string)
        (dps : list value) :
  get_data_products c st ar s = Ok (VList dps) ->
  forallb list_normalizes dps = true ->
  outcome (dataproduct_list (Ok c) st ar s) = Ok (VList (map list_record dps)).
Proof.
  intros Hc Hn. rewrite dataproduct_list_outcome.
  cbn [bind Monad_result]. rewrite Hc.
  destruct dps as [|dp rest]; [reflexivity|].
  cbn [truthy iter]. cbn [bind Monad_result].
  now rewrite (for_each_list_ok _ Hn).
Qed.

Lemma list_field_resolution_witness :
  let dp := VDict [("id", VStr "dp-1"); ("title", VStr EmptyString);
                   ("info", VDict [("title", VStr "Sales Data");
                                   ("owner", VStr "team-a")])] in
  let c := constant_client (Ok (VList [dp])) in
  forallb list_normalizes [dp] = true
  /\ outcome (dataproduct_list (Ok c) (Some "sales") None None)
     = Ok (VList [VDict [("id", VStr "dp-1"); ("name", VStr "Sales Data");
                         ("description", NA); ("owner", VStr "team-a")]]).
Proof.
  intros dp c. split; [reflexivity|].
  exact (list_field_resolution c (Some "sales") None None [dp]
           eq_refl eq_refl).
Defined.

(** ** Rendering of configuration errors *)

(** C2, as claimed, fails for the get-by-id tools: the message of a
    [ValueError] comes back behind the prefix ["Error: "], not bare. *)
Lemma get_config_error_prefixed :
  let e := Exn ValueError "DATAMESH_MANAGER_API_KEY is not set" in
  let returned :=
    outcome (dataproduct_get (Raise e) (fun _ => Ok "unused") "dp-1") in
  returned = Ok (VStr "Error: DATAMESH_MANAGER_API_KEY is not set")
  /\ returned <> Ok (VStr (exn_str e)).
Proof. cbv zeta. split; [reflexivity|]. cbn. discriminate. Qed.

Lemma client_raises_body (nc : result DataMeshManagerClient)
      (request : DataMeshManagerClient -> result value) (e : exn)
      (k : value -> result value) :
  client_raises nc request e ->
  (client <- nc ;; v <- request client ;; k v) = Raise e.
Proof.
  intros [->|(c & -> & Hr)]; cbn; [reflexivity|]. now rewrite Hr.
Qed.

(** C2, amended: for a [ValueError] raised by the client's constructor or
    by its request, [dataproduct_list] and [dataproduct_search] return
    [[{"error": <message>}]] with the bare message, and [dataproduct_get]
    and [datacontract_get] return the string ["Error: <message>"]. *)
Theorem config_error_rendering (e : exn) :
  isinstance_ValueError e = true ->
  (forall nc st ar s,
      client_raises nc (fun c => get_data_products c st ar s) e ->
      outcome (dataproduct_list nc st ar s)
      = Ok (VList [VDict [("error", VStr (exn_str e))]]))
  /\ (forall nc term,
      client_raises nc (fun c => search c term "DATA_PRODUCT") e ->
      outcome (dataproduct_search nc term)
      = Ok (VList [VDict [("error", VStr (exn_str e))]]))
  /\ (forall nc dump id,
      client_raises nc (fun c => get_data_product c id) e ->
      outcome (dataproduct_get nc dump id)
      = Ok (VStr ("Error: " ++ exn_str e)))
  /\ (forall nc dump id,
      client_raises nc (fun c => get_data_contract c id) e ->
      outcome (datacontract_get nc dump id)
      = Ok (VStr ("Error: " ++ exn_str e))).
Proof.
  intros He. repeat split; intros.
  - rewrite dataproduct_list_outcome.
    rewrite (client_raises_body _ _ _ _ H). unfold rendered. now rewrite He.
  - rewrite dataproduct_search_outcome.
    rewrite (client_raises_body _ _ _ _ H). unfold rendered. now rewrite He.
  - rewrite dataproduct_get_outcome.
    rewrite (client_raises_body _ _ _ _ H). unfold rendered. now rewrite He.
  - rewrite datacontract_get_outcome.
    rewrite (client_raises_body _ _ _ _ H). unfold rendered. now rewrite He.
Qed.

Lemma config_error_rendering_witness :
  let e := Exn ValueError "DATAMESH_MANAGER_API_KEY is not set" in
  outcome (dataproduct_list (Raise e) None None None)
  = Ok (VList [VDict [("error",
                       VStr "DATAMESH_MANAGER_API_KEY is not set")]])
  /\ outcome (datacontract_get (Ok (constant_client (Raise e)))
                (fun _ => Ok "unused") "dc-1")
     = Ok (VStr "Error: DATAMESH_MANAGER_API_KEY is not set").
Proof.
  cbv zeta.
  pose proof (config_error_rendering
                (Exn ValueError "DATAMESH_MANAGER_API_KEY is not set")
                eq_refl) as (Hlist & _ & _ & Hcontract).
  split.
  - apply Hlist. left. reflexivity.
  - apply (Hcontract _ (fun _ => Ok "unused") "dc-1"). right. eexists.
    split; reflexivity.
Defined.

(** ** Nothing crosses the tool boundary *)

Lemma rendered_list_of_dicts (config_prefix prefix : string)
      (body : result value) :
  (forall v, body = Ok v -> is_list_of_dicts v = true) ->
  is_list_of_dicts (rendered error_record config_prefix prefix body) = true.
Proof.
  intros H. destruct body as [v|e]; cbn; [now apply H | reflexivity].
Qed.

Lemma loop_list_of_dicts (f : value -> result value) (data v : value) :
  (forall dp r, f dp = Ok r -> is_dict r = true) ->
  (if truthy data then
     dps <- iter data ;; outs <- for_each f dps ;; ret (VList outs)
   else ret (VList [])) = Ok v ->
  is_list_of_dicts v = true.
Proof.
  intros Hf. destruct (truthy data); cbn.
  - destruct (iter data) as [dps|e]; cbn; [|discriminate].
    destruct (for_each f dps) as [outs|e] eqn:Ho; cbn; [|discriminate].
    intros [= <-]. cbn. exact (for_each_dicts f Hf _ _ Ho).
  - now intros [= <-].
Qed.

Lemma rendered_str (config_prefix prefix : string) (body : result value) :
  (forall v, body = Ok v -> is_str v = true) ->
  exists text, rendered VStr config_prefix prefix body = VStr text.
Proof.
  intros H. destruct body as [v|e]; cbn; [|eauto].
  specialize (H v eq_refl). destruct v; try discriminate. eauto.
Qed.

(** C3: whatever the client does (its constructor or its request returns
    any value, the absence indicator included, or raises a [ValueError]
    or any other exception) and whatever the serializer does, each tool
    returns a value of its declared type: a list of mappings for
    [dataproduct_list] and [dataproduct_search], a string for
    [dataproduct_get] and [datacontract_get]; no exception gets out. *)
Theorem tools_return_a_value
        (nc : result DataMeshManagerClient)
        (dump : value -> result string) :
  (forall st ar s, exists v,
      outcome (dataproduct_list nc st ar s) = Ok v
      /\ is_list_of_dicts v = true)
  /\ (forall term, exists v,
      outcome (dataproduct_search nc term) = Ok v
      /\ is_list_of_dicts v = true)
  /\ (forall id, exists text,
      outcome (dataproduct_get nc dump id) = Ok (VStr text))
  /\ (forall id, exists text,
      outcome (datacontract_get nc dump id) = Ok (VStr text)).
Proof.
  repeat split.
  - intros st ar s. rewrite dataproduct_list_outcome.
    eexists. split; [reflexivity|].
    apply rendered_list_of_dicts. intros v.
    destruct nc as [c|e]; cbn; [|discriminate].
    destruct (get_data_products c st ar s) as [data|e]; cbn; [|discriminate].
    apply loop_list_of_dicts, list_formatted_product_dict.
  - intros term. rewrite dataproduct_search_outcome.
    eexists. split; [reflexivity|].
    apply rendered_list_of_dicts. intros v.
    destruct nc as [c|e]; cbn; [|discriminate].
    destruct (search c term "DATA_PRODUCT") as [res|e]; cbn; [|discriminate].
    destruct (get res "results" (VList [])) as [data|e]; cbn; [|discriminate].
    apply loop_list_of_dicts, search_formatted_product_dict.
  - intros id. rewrite dataproduct_get_outcome.
    destruct (rendered_str "Error: " "Error fetching data product: "
      (client <- nc ;;
       data_product <- get_data_product client id ;;
       if truthy data_product then
         yaml_data <- dump data_product ;; ret (VStr yaml_data)
       else ret (VStr "Data product not found"))) as [text Ht].
    + intros v. destruct nc as [c|e]; cbn; [|discriminate].
      destruct (get_data_product c id) as [data|e]; cbn; [|discriminate].
      destruct (truthy data); cbn; [|now intros [= <-]].
      destruct (dump data); cbn; [now intros [= <-]|discriminate].
    + exists text. now rewrite Ht.
  - intros id. rewrite datacontract_get_outcome.
    destruct (rendered_str "Error: " "Error fetching data contract: "
      (client <- nc ;;
       data_contract <- get_data_contract client id ;;
       if truthy data_contract then
         yaml_data <- dump data_contract ;; ret (VStr yaml_data)
       else ret (VStr "Data contract not found"))) as [text Ht].
    + intros v. destruct nc as [c|e]; cbn; [|discriminate].
      destruct (get_data_contract c id) as [data|e]; cbn; [|discriminate].
      destruct (truthy data); cbn; [|now intros [= <-]].
      destruct (dump data); cbn; [now intros [= <-]|discriminate].
    + exists text. now rewrite Ht.
Qed.

(** ** Not found *)

(** C4: when the client reports not-found (the absence indicator [None]),
    [dataproduct_get] returns exactly ["Data product not found"] and
    [datacontract_get] exactly ["Data contract not found"], and the
    serializer is not called. *)
Theorem not_found_literal
        (c : DataMeshManagerClient) (dump : value -> result string)
        (id : string) :
  (get_data_product c id = Ok VNone ->
   outcome (dataproduct_get (Ok c) dump id)
   = Ok (VStr "Data product not found")
   /\ forall v, ~ In (Yaml_dump v) (events (dataproduct_get (Ok c) dump id)))
  /\ (get_data_contract c id = Ok VNone ->
      outcome (datacontract_get (Ok c) dump id)
      = Ok (VStr "Data contract not found")
      /\ forall v,
          ~ In (Yaml_dump v) (events (datacontract_get (Ok c) dump id))).
Proof.
  split; intros Hc.
  - split.
    + rewrite dataproduct_get_outcome. cbn [bind Monad_result].
      now rewrite Hc.
    + intros v Hin.
      destruct (dataproduct_get_dumps _ _ _ _ Hin) as (c' & [= <-] & Hv & Ht).
      rewrite Hc in Hv. injection Hv as <-. discriminate.
  - split.
    + rewrite datacontract_get_outcome. cbn [bind Monad_result].
      now rewrite Hc.
    + intros v Hin.
      destruct (datacontract_get_dumps _ _ _ _ Hin) as (c' & [= <-] & Hv & Ht).
      rewrite Hc in Hv. injection Hv as <-. discriminate.
Qed.

Lemma not_found_literal_witness :
  let c := constant_client (Ok VNone) in
  let dump := fun _ : value => Ok "unused" in
  outcome (dataproduct_get (Ok c) dump "dp-404")
  = Ok (VStr "Data product not found")
  /\ outcome (datacontract_get (Ok c) dump "dc-404")
     = Ok (VStr "Data contract not found").
Proof.
  intros c dump.
  destruct (not_found_literal c dump "dp-404") as [Hp _].
  destruct (not_found_literal c dump "dc-404") as [_ Hc].
  split; [exact (proj1 (Hp eq_refl)) | exact (proj1 (Hc eq_refl))].
Defined.

(** ** Zero results *)

(** C5: when the request succeeds with zero results (the empty list for
    the listing; for the search a mapping whose [results] entry is the
    empty list or is missing), [dataproduct_list] and [dataproduct_search]
    return the empty list: no error marker, no [None]. *)
Theorem zero_results_empty_list (c : DataMeshManagerClient) :
  (forall st ar s,
      get_data_products c st ar s = Ok (VList []) ->
      outcome (dataproduct_list (Ok c) st ar s) = Ok (VList []))
  /\ (forall term response,
      search c term "DATA_PRODUCT" = Ok (VDict response) ->
      dict_lookup response "results" = Some (VList [])
      \/ dict_lookup response "results" = None ->
      outcome (dataproduct_search (Ok c) term) = Ok (VList [])).
Proof.
  split.
  - intros st ar s Hc. rewrite dataproduct_list_outcome.
    cbn [bind Monad_result]. now rewrite Hc.
  - intros term response Hc Hr. rewrite dataproduct_search_outcome.
    cbn [bind Monad_result]. rewrite Hc. cbn [get].
    now destruct Hr as [-> | ->].
Qed.

Lemma zero_results_empty_list_witness :
  outcome (dataproduct_list (Ok (constant_client (Ok (VList []))))
             (Some "sales") None None) = Ok (VList [])
  /\ outcome (dataproduct_search
                (Ok (constant_client
                       (Ok (VDict [("results", VList []);
                                   ("total", VInt 0)]))))
                "sales") = Ok (VList []).
Proof.
  split.
  - apply (proj1 (zero_results_empty_list _)). reflexivity.
  - eapply (proj2 (zero_results_empty_list _)).
    + reflexivity.
    + left. reflexivity.
Defined.

(** ** The search shape: owner split in two *)

Lemma search_record_owner_split (dp : value) :
  is_dict dp = true -> owner_split dp (search_record dp).
Proof.
  destruct dp as [| | | | | |d]; try discriminate. intros _.
  exists d. eexists. split; [reflexivity|]. split; [reflexivity|].
  cbn. unfold value_or_NA.
  repeat split.
  - now destruct (dict_lookup d "ownerId").
  - now destruct (dict_lookup d "ownerName").
Qed.

Lemma search_normalizes_dict (dp : value) :
  search_normalizes dp = true -> is_dict dp = true.
Proof. now destruct dp. Qed.

Lemma Forall2_map_of {A B : Type} (R : A -> B -> Prop) (g : A -> B)
      (ok : A -> bool) (xs : list A) :
  (forall x, ok x = true -> R x (g x)) ->
  forallb ok xs = true -> Forall2 R xs (map g xs).
Proof.
  intros H. induction xs as [|x rest IH]; cbn; intros Hall.
  - constructor.
  - apply andb_true_iff in Hall. destruct Hall as [Hx Hr].
    constructor; auto.
Qed.

Lemma dataproduct_search_loop (c : DataMeshManagerClient) (term : string)
      (response : list (string * value)) (dps : list value) :
  search c term "DATA_PRODUCT" = Ok (VDict response) ->
  dict_lookup response "results" = Some (VList dps) ->
  outcome (dataproduct_search (Ok c) term)
  = Ok (rendered error_record EmptyString "Error searching data products: "
          (if truthy (VList dps) then
             outs <- for_each search_formatted_product dps ;;
             ret (VList outs)
           else ret (VList []))).
Proof.
  intros Hc Hr. rewrite dataproduct_search_outcome.
  cbn [bind Monad_result]. rewrite Hc. cbn [get]. rewrite Hr.
  now destruct dps.
Qed.

Lemma dataproduct_list_loop (c : DataMeshManagerClient)
      (st ar s : option string) (dps : list value) :
  get_data_products c st ar s = Ok (VList dps) ->
  outcome (dataproduct_list (Ok c) st ar s)
  = Ok (rendered error_record EmptyString "Error fetching data products: "
          (if truthy (VList dps) then
             outs <- for_each list_formatted_product dps ;;
             ret (VList outs)
           else ret (VList []))).
Proof.
  intros Hc. rewrite dataproduct_list_outcome.
  cbn [bind Monad_result]. rewrite Hc.
  now destruct dps.
Qed.

(** C6: every search-shaped record that [dataproduct_search] normalizes
    comes out as a mapping with the separate fields [ownerId] and
    [ownerName], each the record's own value or ["N/A"], and without an
    [owner] field; and the tool returns such a record for every record of
    the [results] the client delivers, when all are normalized. *)
Theorem search_owner_fields :
  (forall d out,
      search_formatted_product (VDict d) = Ok out ->
      owner_split (VDict d) out)
  /\ (forall c term response dps,
      search c term "DATA_PRODUCT" = Ok (VDict response) ->
      dict_lookup response "results" = Some (VList dps) ->
      forallb search_normalizes dps = true ->
      exists outs,
        outcome (dataproduct_search (Ok c) term) = Ok (VList outs)
        /\ Forall2 owner_split dps outs).
Proof.
  split.
  - intros d out H.
    destruct (search_normalizes (VDict d)) eqn:Hn.
    + rewrite (search_formatted_product_ok _ Hn) in H. injection H as <-.
      now apply search_record_owner_split.
    + now rewrite (search_formatted_product_raise _ Hn) in H.
  - intros c term response dps Hc Hr Hn.
    exists (map search_record dps). split.
    + rewrite (dataproduct_search_loop _ _ _ _ Hc Hr).
      destruct dps as [|dp rest]; [reflexivity|].
      cbn [truthy]. now rewrite (for_each_search_ok _ Hn).
    + apply (Forall2_map_of _ _ search_normalizes); [|exact Hn].
      intros dp Hdp. apply search_record_owner_split.
      now apply search_normalizes_dict.
Qed.

Lemma search_owner_fields_witness :
  let dp := VDict [("id", VStr "dp-1"); ("name", VStr "Sales Data");
                   ("ownerId", VStr "team-a"); ("ownerName", VStr EmptyString)] in
  let c := constant_client (Ok (VDict [("results", VList [dp])])) in
  owner_split dp (VDict [("id", VStr "dp-1"); ("name", VStr "Sales Data");
                         ("description", NA); ("ownerId", VStr "team-a");
                         ("ownerName", NA)])
  /\ exists outs,
      outcome (dataproduct_search (Ok c) "sales") = Ok (VList outs)
      /\ Forall2 owner_split [dp] outs.
Proof.
  intros dp c. split.
  - apply (proj1 search_owner_fields). reflexivity.
  - apply (proj2 search_owner_fields c "sales" [("results", VList [dp])]);
      reflexivity.
Defined.

(** ** One output record per raw record *)

(** C8, as claimed, fails: of two raw records the first has a null [info]
    and no title; the loop stops there and the tool returns one error
    marker, not two normalized records. *)
Lemma list_two_records_one_marker :
  let dps := [VDict [("id", VStr "dp-1"); ("info", VNone)];
              VDict [("id", VStr "dp-2"); ("title", VStr "Sales Data")]] in
  let c := constant_client (Ok (VList dps)) in
  outcome (dataproduct_list (Ok c) None None None)
  = Ok (VList [VDict [("error",
          VStr "Error fetching data products: 'NoneType' object has no attribute 'get'")]])
  /\ ~ exists outs,
        outcome (dataproduct_list (Ok c) None None None) = Ok (VList outs)
        /\ length outs = length dps.
Proof.
  intros dps c. split; [reflexivity|].
  intros (outs & H & Hlen). cbn in H. injection H as <-. discriminate.
Qed.

(** C8, amended: for a non-empty sequence of raw records that are all
    normalized, [dataproduct_list] and [dataproduct_search] return one
    record per raw record, in the order received, each the value of the
    loop body on its own raw record; when some record is not normalized
    (it is not a mapping, or its [info] entry is consulted and is not a
    mapping) they return a single error marker instead. *)
Theorem one_record_per_raw_record (c : DataMeshManagerClient)
        (dps : list value) :
  dps <> [] ->
  (forall st ar s,
      get_data_products c st ar s = Ok (VList dps) ->
      (forallb list_normalizes dps = true ->
       exists outs,
         outcome (dataproduct_list (Ok c) st ar s) = Ok (VList outs)
         /\ Forall2 (fun dp out => list_formatted_product dp = Ok out) dps outs)
      /\ (forallb list_normalizes dps = false ->
          exists bad, In bad dps /\
            outcome (dataproduct_list (Ok c) st ar s)
            = Ok (error_record
                    (error_message "Error fetching data products: " bad))))
  /\ (forall term response,
      search c term "DATA_PRODUCT" = Ok (VDict response) ->
      dict_lookup response "results" = Some (VList dps) ->
      (forallb search_normalizes dps = true ->
       exists outs,
         outcome (dataproduct_search (Ok c) term) = Ok (VList outs)
         /\ Forall2 (fun dp out => search_formatted_product dp = Ok out)
                    dps outs)
      /\ (forallb search_normalizes dps = false ->
          exists bad, In bad dps /\
            outcome (dataproduct_search (Ok c) term)
            = Ok (error_record
                    (error_message "Error searching data products: " bad)))).
Proof.
  intros Hne.
  assert (Ht : truthy (VList dps) = true)
    by (destruct dps; [now elim Hne | reflexivity]).
  split.
  - intros st ar s Hc. rewrite (dataproduct_list_loop _ _ _ _ _ Hc), Ht.
    split; intros Hn.
    + exists (map list_record dps). rewrite (for_each_list_ok _ Hn).
      split; [reflexivity|].
      apply (Forall2_map_of _ _ list_normalizes); [|exact Hn].
      exact list_formatted_product_ok.
    + destruct (for_each_list_raise _ Hn) as (bad & Hin & _ & Hr).
      exists bad. split; [exact Hin|]. now rewrite Hr.
  - intros term response Hc Hr.
    rewrite (dataproduct_search_loop _ _ _ _ Hc Hr), Ht.
    split; intros Hn.
    + exists (map search_record dps). rewrite (for_each_search_ok _ Hn).
      split; [reflexivity|].
      apply (Forall2_map_of _ _ search_normalizes); [|exact Hn].
      exact search_formatted_product_ok.
    + destruct (for_each_search_raise _ Hn) as (bad & Hin & _ & Hr').
      exists bad. split; [exact Hin|]. now rewrite Hr'.
Qed.

Lemma one_record_per_raw_record_witness :
  let dps := [VDict [("id", VStr "dp-1"); ("title", VStr "Sales Data")];
              VDict [("id", VStr "dp-2");
                     ("info", VDict [("title", VStr "Orders")])]] in
  let c := constant_client (Ok (VList dps)) in
  dps <> []
  /\ exists outs,
      outcome (dataproduct_list (Ok c) None None None) = Ok (VList outs)
      /\ Forall2 (fun dp out => list_formatted_product dp = Ok out) dps outs.
Proof.
  intros dps c.
  assert (Hne : dps <> []) by discriminate.
  split; [exact Hne|].
  destruct (one_record_per_raw_record c dps Hne) as [Hlist _].
  apply (Hlist None None None eq_refl). reflexivity.
Defined.

(** ** Falsy results of the get-by-id tools *)

(** C9: for every falsy client result (the absence indicator [None], but
    also the empty mapping, which is falsy too) [dataproduct_get] returns
    ["Data product not found"] and [datacontract_get] returns
    ["Data contract not found"]: an existing but empty record cannot be
    told from a missing one. *)
Theorem falsy_result_not_found
        (c : DataMeshManagerClient) (dump : value -> result string)
        (id : string) (v : value) :
  truthy v = false ->
  truthy (VDict []) = false
  /\ (get_data_product c id = Ok v ->
      outcome (dataproduct_get (Ok c) dump id)
      = Ok (VStr "Data product not found")
      /\ outcome (dataproduct_get (Ok c) dump id)
         = outcome (dataproduct_get (Ok (constant_client (Ok VNone))) dump id))
  /\ (get_data_contract c id = Ok v ->
      outcome (datacontract_get (Ok c) dump id)
      = Ok (VStr "Data contract not found")
      /\ outcome (datacontract_get (Ok c) dump id)
         = outcome (datacontract_get (Ok (constant_client (Ok VNone)))
                      dump id)).
Proof.
  intros Hv. split; [reflexivity|].
  split; intros Hc.
  - rewrite !dataproduct_get_outcome. cbn [bind Monad_result].
    rewrite Hc, Hv. split; reflexivity.
  - rewrite !datacontract_get_outcome. cbn [bind Monad_result].
    rewrite Hc, Hv. split; reflexivity.
Qed.

Lemma falsy_result_not_found_witness :
  let c := constant_client (Ok (VDict [])) in
  let dump := fun _ : value => Ok "{}" in
  outcome (dataproduct_get (Ok c) dump "dp-1")
  = Ok (VStr "Data product not found")
  /\ outcome (datacontract_get (Ok c) dump "dc-1")
     = Ok (VStr "Data contract not found").
Proof.
  intros c dump.
  destruct (falsy_result_not_found c dump "dp-1" (VDict []) eq_refl)
    as (_ & Hp & _).
  destruct (falsy_result_not_found c dump "dc-1" (VDict []) eq_refl)
    as (_ & _ & Hc).
  split; [exact (proj1 (Hp eq_refl)) | exact (proj1 (Hc eq_refl))].
Defined.

(** ** The [id] of a listed record *)

Lemma first_nonempty_truthy (v : value) (paths : list (list string)) :
  truthy (first_nonempty v paths) = true.
Proof.
  induction paths as [|path rest IH]; [reflexivity|].
  cbn [first_nonempty].
  destruct (lookup_path v path) as [x|]; [|exact IH].
  destruct (truthy x) eqn:Hx; [exact Hx | exact IH].
Qed.

Lemma first_nonempty_not_empty_string (v : value)
      (paths : list (list string)) :
  first_nonempty v paths <> VStr EmptyString.
Proof.
  intros H. pose proof (first_nonempty_truthy v paths) as Ht.
  rewrite H in Ht. discriminate.
Qed.

Lemma empty_top_level (d : list (string * value)) (key : string) :
  dict_lookup d key = Some (VStr EmptyString) ->
  first_nonempty (VDict d) [[key]; ["info"; key]]
  = first_nonempty (VDict d) [["info"; key]].
Proof. intros H. cbn [first_nonempty lookup_path]. now rewrite H. Qed.

Lemma resolved_field_replaced (d fields : list (string * value))
      (key field : string) :
  dict_lookup fields field
  = Some (first_nonempty (VDict d) [[key]; ["info"; key]]) ->
  empty_string_replaced d fields key field.
Proof.
  intros Hf Hk. rewrite Hf, (empty_top_level _ _ Hk). repeat split.
  - intros Heq.
    apply (first_nonempty_not_empty_string (VDict d) [["info"; key]]).
    congruence.
  - intros Hi. cbn [first_nonempty lookup_path]. now rewrite Hi.
Qed.

Lemma list_normalizes_dict (dp : value) :
  list_normalizes dp = true -> is_dict dp = true.
Proof. now destruct dp. Qed.

Lemma list_record_id_defaulted (dp : value) :
  is_dict dp = true -> id_defaulted_on_presence dp (list_record dp).
Proof.
  destruct dp as [| | | | | |d]; try discriminate. intros _.
  exists d. eexists. split; [reflexivity|]. split; [reflexivity|].
  cbn [lookup_path].
  refine (conj _ (conj _ (conj _ (conj _ (conj _ _)))));
    try (apply resolved_field_replaced; reflexivity).
  - intros x Hx. cbn. now rewrite Hx.
  - intros Hx. cbn. now rewrite Hx.
  - intros Hx. cbn. now rewrite Hx.
Qed.

(** C10: in the records [dataproduct_list] returns, the [id] field is
    defaulted on presence: it is the value under the [id] key whenever
    the key is there, so an empty-string [id] comes out as the empty
    string, and the sentinel is substituted only when the key is absent;
    [name], [description] and [owner] instead replace an empty string (by
    the nested candidate when there is one, else by ["N/A"]).  This holds
    of every record the loop body builds, and of the output of the tool
    for every sequence of records it normalizes. *)
Theorem list_id_defaulted_on_presence :
  (forall d out,
      list_formatted_product (VDict d) = Ok out ->
      id_defaulted_on_presence (VDict d) out)
  /\ (forall c st ar s dps,
      get_data_products c st ar s = Ok (VList dps) ->
      forallb list_normalizes dps = true ->
      exists outs,
        outcome (dataproduct_list (Ok c) st ar s) = Ok (VList outs)
        /\ Forall2 id_defaulted_on_presence dps outs).
Proof.
  split.
  - intros d out H.
    destruct (list_normalizes (VDict d)) eqn:Hn.
    + rewrite (list_formatted_product_ok _ Hn) in H. injection H as <-.
      now apply list_record_id_defaulted.
    + now rewrite (list_formatted_product_raise _ Hn) in H.
  - intros c st ar s dps Hc Hn.
    exists (map list_record dps). split.
    + rewrite (dataproduct_list_loop _ _ _ _ _ Hc).
      destruct dps as [|dp rest]; [reflexivity|].
      cbn [truthy]. now rewrite (for_each_list_ok _ Hn).
    + apply (Forall2_map_of _ _ list_normalizes); [|exact Hn].
      intros dp Hdp. apply list_record_id_defaulted.
      now apply list_normalizes_dict.
Qed.

Lemma list_id_defaulted_on_presence_witness :
  let dp := VDict [("id", VStr EmptyString); ("title", VStr EmptyString);
                   ("owner", VStr "team-a")] in
  let c := constant_client (Ok (VList [dp])) in
  outcome (dataproduct_list (Ok c) None None None)
  = Ok (VList [VDict [("id", VStr EmptyString); ("name", NA);
                      ("description", NA); ("owner", VStr "team-a")]])
  /\ exists outs,
      outcome (dataproduct_list (Ok c) None None None) = Ok (VList outs)
      /\ Forall2 id_defaulted_on_presence [dp] outs.
Proof.
  intros dp c. split; [reflexivity|].
  exact (proj2 list_id_defaulted_on_presence c None None None [dp]
           eq_refl eq_refl).
Defined.

(** ** Serialization in the get-by-id tools

    A truthy record goes through the serializer once and its text is
    returned as it is. *)
Lemma dataproduct_get_serialized (c : DataMeshManagerClient)
      (dump : value -> result string) (id : string) (v : value)
      (text : string) :
  get_data_product c id = Ok v -> truthy v = true -> dump v = Ok text ->
  outcome (dataproduct_get (Ok c) dump id) = Ok (VStr text)
  /\ filter (fun ev => match ev with Yaml_dump _ => true | _ => false end)
            (events (dataproduct_get (Ok c) dump id)) = [Yaml_dump v].
Proof.
  intros Hc Hv Hd. unfold dataproduct_get, outcome, events. cbn.
  rewrite Hc. cbn. rewrite Hv. cbn. rewrite Hd. cbn. split; reflexivity.
Qed.

Lemma datacontract_get_serialized (c : DataMeshManagerClient)
      (dump : value -> result string) (id : string) (v : value)
      (text : string) :
  get_data_contract c id = Ok v -> truthy v = true -> dump v = Ok text ->
  outcome (datacontract_get (Ok c) dump id) = Ok (VStr text)
  /\ filter (fun ev => match ev with Yaml_dump _ => true | _ => false end)
            (events (datacontract_get (Ok c) dump id)) = [Yaml_dump v].
Proof.
  intros Hc Hv Hd. unfold datacontract_get, outcome, events. cbn.
  rewrite Hc. cbn. rewrite Hv. cbn. rewrite Hd. cbn. split; reflexivity.
Qed.

(** * Further properties of the tools *)

(** Destructs, one after the other, the calls a tool's outcome and trace
    depend on. *)
Ltac tool_cases :=
  repeat (cbn;
          match goal with
          | |- context [isinstance_ValueError ?e] =>
              destruct (isinstance_ValueError e) eqn:?
          | |- context [truthy ?v] => destruct (truthy v) eqn:?
          | |- context [iter ?v] => destruct (iter v) eqn:?
          | |- context [for_each ?f ?xs] => destruct (for_each f xs) eqn:?
          | |- context [get ?v "results" ?d] =>
              destruct (get v "results" d) eqn:?
          | |- context [get_data_products ?c ?a ?b ?d] =>
              destruct (get_data_products c a b d) eqn:?
          | |- context [search ?c ?a ?b] => destruct (search c a b) eqn:?
          | |- context [get_data_product ?c ?a] =>
              destruct (get_data_product c a) eqn:?
          | |- context [get_data_contract ?c ?a] =>
              destruct (get_data_contract c a) eqn:?
          end).

(** ** Unexpected failures *)

(** X1: an exception of the client that is not a [ValueError], raised by
    the constructor or by the request, is rendered with the prefix of the
    operation: ["Error fetching data products: "], ["Error searching data
    products: "], ["Error fetching data product: "], ["Error fetching data
    contract: "], followed by the exception's message. *)
Theorem unexpected_error_prefixed (e : exn) :
  isinstance_ValueError e = false ->
  (forall nc st ar s,
      client_raises nc (fun c => get_data_products c st ar s) e ->
      outcome (dataproduct_list nc st ar s)
      = Ok (VList [VDict [("error",
              VStr ("Error fetching data products: " ++ exn_str e))]]))
  /\ (forall nc term,
      client_raises nc (fun c => search c term "DATA_PRODUCT") e ->
      outcome (dataproduct_search nc term)
      = Ok (VList [VDict [("error",
              VStr ("Error searching data products: " ++ exn_str e))]]))
  /\ (forall nc dump id,
      client_raises nc (fun c => get_data_product c id) e ->
      outcome (dataproduct_get nc dump id)
      = Ok (VStr ("Error fetching data product: " ++ exn_str e)))
  /\ (forall nc dump id,
      client_raises nc (fun c => get_data_contract c id) e ->
      outcome (datacontract_get nc dump id)
      = Ok (VStr ("Error fetching data contract: " ++ exn_str e))).
Proof.
  intros He. repeat split; intros.
  - rewrite dataproduct_list_outcome.
    rewrite (client_raises_body _ _ _ _ H). unfold rendered. now rewrite He.
  - rewrite dataproduct_search_outcome.
    rewrite (client_raises_body _ _ _ _ H). unfold rendered. now rewrite He.
  - rewrite dataproduct_get_outcome.
    rewrite (client_raises_body _ _ _ _ H). unfold rendered. now rewrite He.
  - rewrite datacontract_get_outcome.
    rewrite (client_raises_body _ _ _ _ H). unfold rendered. now rewrite He.
Qed.

Lemma unexpected_error_prefixed_witness :
  let e := Exn (OtherException "ConnectError") "connection refused" in
  outcome (dataproduct_search (Ok (constant_client (Raise e))) "sales")
  = Ok (VList [VDict [("error",
          VStr "Error searching data products: connection refused")]])
  /\ outcome (dataproduct_get (Raise e) (fun _ => Ok "unused") "dp-1")
     = Ok (VStr "Error fetching data product: connection refused").
Proof.
  intros e.
  pose proof (unexpected_error_prefixed e eq_refl) as (_ & Hs & Hg & _).
  split.
  - apply Hs. right. eexists. split; reflexivity.
  - apply (Hg _ (fun _ => Ok "unused") "dp-1"). left. reflexivity.
Defined.

(** ** The serializer *)

(** X2: when the serializer raises on a found record, the get-by-id
    tools return an error string: the message behind ["Error: "] for a
    [ValueError], behind the operation prefix for any other exception. *)
Theorem serializer_failure_rendered
        (c : DataMeshManagerClient) (dump : value -> result string)
        (id : string) (v : value) (e : exn) :
  truthy v = true -> dump v = Raise e ->
  (get_data_product c id = Ok v ->
   outcome (dataproduct_get (Ok c) dump id)
   = Ok (VStr (rendered_message "Error: " "Error fetching data product: " e)))
  /\ (get_data_contract c id = Ok v ->
      outcome (datacontract_get (Ok c) dump id)
      = Ok (VStr (rendered_message "Error: "
                    "Error fetching data contract: " e))).
Proof.
  intros Hv Hd. split; intros Hc.
  - rewrite dataproduct_get_outcome. cbn [bind Monad_result].
    rewrite Hc, Hv, Hd. reflexivity.
  - rewrite datacontract_get_outcome. cbn [bind Monad_result].
    rewrite Hc, Hv, Hd. reflexivity.
Qed.

Lemma serializer_failure_rendered_witness :
  let v := VDict [("id", VStr "dp-1")] in
  let e := Exn (OtherException "RepresenterError") "cannot represent" in
  outcome (dataproduct_get (Ok (constant_client (Ok v)))
             (fun _ => Raise e) "dp-1")
  = Ok (VStr "Error fetching data product: cannot represent").
Proof.
  intros v e.
  exact (proj1 (serializer_failure_rendered (constant_client (Ok v))
                  (fun _ => Raise e) "dp-1" v e eq_refl eq_refl) eq_refl).
Defined.

(** X3: a found (truthy) record that the serializer accepts comes back as
    the serializer's text, unchanged, and the serializer is called exactly
    once, on the record the client returned. *)
Theorem found_record_serialized_once
        (c : DataMeshManagerClient) (dump : value -> result string)
        (id : string) (v : value) (text : string) :
  truthy v = true -> dump v = Ok text ->
  (get_data_product c id = Ok v ->
   outcome (dataproduct_get (Ok c) dump id) = Ok (VStr text)
   /\ filter is_dump (events (dataproduct_get (Ok c) dump id))
      = [Yaml_dump v])
  /\ (get_data_contract c id = Ok v ->
      outcome (datacontract_get (Ok c) dump id) = Ok (VStr text)
      /\ filter is_dump (events (datacontract_get (Ok c) dump id))
         = [Yaml_dump v]).
Proof.
  intros Hv Hd. split; intros Hc.
  - exact (dataproduct_get_serialized c dump id v text Hc Hv Hd).
  - exact (datacontract_get_serialized c dump id v text Hc Hv Hd).
Qed.

Lemma found_record_serialized_once_witness :
  let v := VDict [("id", VStr "dp-1")] in
  let dump := fun _ : value => Ok "id: dp-1" in
  outcome (dataproduct_get (Ok (constant_client (Ok v))) dump "dp-1")
  = Ok (VStr "id: dp-1").
Proof.
  intros v dump.
  exact (proj1 (proj1 (found_record_serialized_once
                         (constant_client (Ok v)) dump "dp-1" v "id: dp-1"
                         eq_refl eq_refl) eq_refl)).
Defined.

(** X4: the serializer is called for a value exactly when the client was
    built, returned that value and the value is truthy: never on a
    failure of the client, never on a falsy result. *)
Theorem serializer_called_iff_found
        (nc : result DataMeshManagerClient) (dump : value -> result string)
        (id : string) (v : value) :
  (In (Yaml_dump v) (events (dataproduct_get nc dump id))
   <-> exists c, nc = Ok c /\ get_data_product c id = Ok v
                 /\ truthy v = true)
  /\ (In (Yaml_dump v) (events (datacontract_get nc dump id))
      <-> exists c, nc = Ok c /\ get_data_contract c id = Ok v
                    /\ truthy v = true).
Proof.
  split; split.
  - apply dataproduct_get_dumps.
  - intros (c & -> & Hc & Hv). unfold dataproduct_get, events. cbn.
    rewrite Hc. cbn. rewrite Hv. cbn.
    destruct (dump v) as [text|e]; cbn;
      [|destruct (isinstance_ValueError e); cbn]; intuition.
  - apply datacontract_get_dumps.
  - intros (c & -> & Hc & Hv). unfold datacontract_get, events. cbn.
    rewrite Hc. cbn. rewrite Hv. cbn.
    destruct (dump v) as [text|e]; cbn;
      [|destruct (isinstance_ValueError e); cbn]; intuition.
Qed.

Lemma serializer_called_iff_found_witness :
  let v := VDict [("id", VStr "dp-1")] in
  let c := constant_client (Ok v) in
  In (Yaml_dump v)
     (events (dataproduct_get (Ok c) (fun _ => Ok "id: dp-1") "dp-1")).
Proof.
  intros v c.
  apply (proj1 (serializer_called_iff_found (Ok c) (fun _ => Ok "id: dp-1")
                  "dp-1" v)).
  exists c. repeat split.
Defined.

(** ** Requests to the registry *)

(** X5: each invocation of a tool sends exactly one request to the
    registry when the client can be built, and none when its constructor
    raises. *)
Theorem one_request_per_call
        (nc : result DataMeshManagerClient) (dump : value -> result string) :
  let expected := match nc with Ok _ => 1 | Raise _ => 0 end in
  (forall st ar s,
      requests (events (dataproduct_list nc st ar s)) = expected)
  /\ (forall term, requests (events (dataproduct_search nc term)) = expected)
  /\ (forall id, requests (events (dataproduct_get nc dump id)) = expected)
  /\ (forall id, requests (events (datacontract_get nc dump id)) = expected).
Proof.
  cbv zeta. repeat split; intros;
    [unfold dataproduct_list | unfold dataproduct_search
     | unfold dataproduct_get | unfold datacontract_get];
    unfold requests, events; destruct nc as [c|e]; tool_cases;
    try reflexivity;
    match goal with
    | |- context [dump ?v] =>
        destruct (dump v) eqn:?; tool_cases; reflexivity
    end.
Qed.

(** ** Shape of the results of the list and search tools *)

Lemma for_each_Forall {A B : Type} (f : A -> result B) (P : B -> Prop) :
  (forall x y, f x = Ok y -> P y) ->
  forall xs ys, for_each f xs = Ok ys -> Forall P ys.
Proof.
  intros Hf xs. induction xs as [|x rest IH]; cbn; intros ys H.
  - injection H as <-. constructor.
  - destruct (f x) as [y|e] eqn:Hy; [|discriminate].
    destruct (for_each f rest) as [rs|e]; [|discriminate].
    injection H as <-. constructor; eauto.
Qed.

Lemma list_formatted_product_keys (dp out : value) :
  list_formatted_product dp = Ok out ->
  keys out = ["id"; "name"; "description"; "owner"].
Proof.
  destruct (list_normalizes dp) eqn:Hn.
  - rewrite (list_formatted_product_ok _ Hn). now intros [= <-].
  - now rewrite (list_formatted_product_raise _ Hn).
Qed.

Lemma search_formatted_product_keys (dp out : value) :
  search_formatted_product dp = Ok out ->
  keys out = ["id"; "name"; "description"; "ownerId"; "ownerName"].
Proof.
  destruct (search_normalizes dp) eqn:Hn.
  - rewrite (search_formatted_product_ok _ Hn). now intros [= <-].
  - now rewrite (search_formatted_product_raise _ Hn).
Qed.

Lemma loop_shape (f : value -> result value) (ks : list string)
      (data v : value) :
  (forall dp r, f dp = Ok r -> keys r = ks) ->
  (if truthy data then
     dps <- iter data ;; outs <- for_each f dps ;; ret (VList outs)
   else ret (VList [])) = Ok v ->
  exists outs, v = VList outs /\ Forall (fun out => keys out = ks) outs.
Proof.
  intros Hf. destruct (truthy data); cbn.
  - destruct (iter data) as [dps|e]; cbn; [|discriminate].
    destruct (for_each f dps) as [outs|e] eqn:Ho; cbn; [|discriminate].
    intros [= <-]. exists outs. split; [reflexivity|].
    exact (for_each_Forall f _ Hf _ _ Ho).
  - intros [= <-]. exists []. split; [reflexivity | constructor].
Qed.

Lemma rendered_shape (prefix : string) (ks : list string)
      (body : result value) :
  (forall v, body = Ok v ->
     exists outs, v = VList outs /\ Forall (fun out => keys out = ks) outs) ->
  (exists msg, rendered error_record EmptyString prefix body
               = error_record msg)
  \/ (exists outs, rendered error_record EmptyString prefix body = VList outs
                   /\ Forall (fun out => keys out = ks) outs).
Proof.
  intros H. destruct body as [v|e]; cbn.
  - right. now apply H.
  - left. eauto.
Qed.

(** X6: what [dataproduct_list] returns is either a single error marker
    [[{"error": msg}]], or a list of records that all have exactly the
    keys [id], [name], [description], [owner], in this order; for
    [dataproduct_search] the keys are [id], [name], [description],
    [ownerId], [ownerName].  A normalized record never carries an [error]
    key, so the two cases cannot be confused. *)
Theorem list_and_search_result_shape (nc : result DataMeshManagerClient) :
  (forall st ar s,
      (exists msg,
          outcome (dataproduct_list nc st ar s) = Ok (error_record msg))
      \/ (exists outs,
             outcome (dataproduct_list nc st ar s) = Ok (VList outs)
             /\ Forall (fun out =>
                          keys out = ["id"; "name"; "description"; "owner"])
                       outs))
  /\ (forall term,
      (exists msg,
          outcome (dataproduct_search nc term) = Ok (error_record msg))
      \/ (exists outs,
             outcome (dataproduct_search nc term) = Ok (VList outs)
             /\ Forall (fun out =>
                          keys out = ["id"; "name"; "description";
                                      "ownerId"; "ownerName"])
                       outs)).
Proof.
  split.
  - intros st ar s. rewrite dataproduct_list_outcome.
    match goal with
    | |- context [rendered error_record EmptyString ?p ?b] =>
        destruct (rendered_shape p ["id"; "name"; "description"; "owner"] b)
          as [(msg & Hm)|(outs & Ho & Hk)]
    end.
    + intros v. destruct nc as [c|e]; cbn; [|discriminate].
      destruct (get_data_products c st ar s) as [data|e]; cbn;
        [|discriminate].
      apply loop_shape, list_formatted_product_keys.
    + left. exists msg. now rewrite Hm.
    + right. exists outs. now rewrite Ho.
  - intros term. rewrite dataproduct_search_outcome.
    match goal with
    | |- context [rendered error_record EmptyString ?p ?b] =>
        destruct (rendered_shape p
                    ["id"; "name"; "description"; "ownerId"; "ownerName"] b)
          as [(msg & Hm)|(outs & Ho & Hk)]
    end.
    + intros v. destruct nc as [c|e]; cbn; [|discriminate].
      destruct (search c term "DATA_PRODUCT") as [res|e]; cbn;
        [|discriminate].
      destruct (get res "results" (VList [])) as [data|e]; cbn;
        [|discriminate].
      apply loop_shape, search_formatted_product_keys.
    + left. exists msg. now rewrite Hm.
    + right. exists outs. now rewrite Ho.
Qed.

Lemma not_error_record (ks : list string) (outs : list value) (msg : string) :
  ks <> ["error"] ->
  Forall (fun out => keys out = ks) outs ->
  VList outs <> error_record msg.
Proof.
  intros Hks Hall Heq. unfold error_record in Heq. injection Heq as ->.
  apply Forall_inv in Hall. cbn in Hall. congruence.
Qed.

(** X7: [dataproduct_list] and [dataproduct_search] write an error line
    to the log exactly when they return an error marker. *)
Theorem error_logged_iff_marker_returned
        (nc : result DataMeshManagerClient) :
  (forall st ar s,
      existsb is_error_log (events (dataproduct_list nc st ar s)) = true
      <-> exists msg,
          outcome (dataproduct_list nc st ar s) = Ok (error_record msg))
  /\ (forall term,
      existsb is_error_log (events (dataproduct_search nc term)) = true
      <-> exists msg,
          outcome (dataproduct_search nc term) = Ok (error_record msg)).
Proof.
  split; intros;
    [unfold dataproduct_list | unfold dataproduct_search];
    unfold events, outcome; destruct nc as [c|e]; tool_cases; cbn;
    (split; [intros Hlog | intros (msg & Hmsg)]);
    try discriminate Hlog; try discriminate Hmsg;
    try (eexists; reflexivity); try reflexivity;
    exfalso; cbn in Hmsg.
  - match type of Hmsg with
    | Ok (VList ?o) = _ =>
        apply (not_error_record ["id"; "name"; "description"; "owner"] o msg)
    end; [discriminate | | congruence].
    eapply for_each_Forall; [exact list_formatted_product_keys|eassumption].
  - match type of Hmsg with
    | Ok (VList ?o) = _ =>
        apply (not_error_record
                 ["id"; "name"; "description"; "ownerId"; "ownerName"] o msg)
    end; [discriminate | | congruence].
    eapply for_each_Forall; [exact search_formatted_product_keys|eassumption].
Qed.

Lemma error_logged_iff_marker_returned_witness :
  let e := Exn (OtherException "ConnectError") "connection refused" in
  existsb is_error_log
    (events (dataproduct_list (Ok (constant_client (Raise e)))
               None None None)) = true.
Proof.
  intros e.
  apply (proj1 (error_logged_iff_marker_returned
                  (Ok (constant_client (Raise e)))) None None None).
  eexists. reflexivity.
Defined.

(** ** Values of the normalized fields *)

Ltac truthy_field dp :=
  first [ exact (first_nonempty_truthy dp [["title"]; ["info"; "title"]])
        | exact (first_nonempty_truthy dp
                   [["description"]; ["info"; "description"]])
        | exact (first_nonempty_truthy dp [["owner"]; ["info"; "owner"]])
        | exact (first_nonempty_truthy dp [["name"]])
        | exact (first_nonempty_truthy dp [["ownerId"]])
        | exact (first_nonempty_truthy dp [["ownerName"]]) ].

(** X8: in a normalized record the fields resolved with [or] are never
    falsy: [name], [description], [owner] of a listed record, and [name],
    [description], [ownerId], [ownerName] of a search record, are never
    [None], the empty string or an empty collection. *)
Theorem resolved_fields_truthy (dp : value) (fields : list (string * value)) :
  (list_formatted_product dp = Ok (VDict fields) ->
   forall k, In k ["name"; "description"; "owner"] ->
     exists x, dict_lookup fields k = Some x /\ truthy x = true)
  /\ (search_formatted_product dp = Ok (VDict fields) ->
      forall k, In k ["name"; "description"; "ownerId"; "ownerName"] ->
        exists x, dict_lookup fields k = Some x /\ truthy x = true).
Proof.
  split; intros H k Hk.
  - destruct (list_normalizes dp) eqn:Hn.
    2: now rewrite (list_formatted_product_raise _ Hn) in H.
    rewrite (list_formatted_product_ok _ Hn) in H. injection H as <-.
    cbn in Hk. destruct Hk as [<-|[<-|[<-|[]]]];
      (eexists; split; [reflexivity | truthy_field dp]).
  - destruct (search_normalizes dp) eqn:Hn.
    2: now rewrite (search_formatted_product_raise _ Hn) in H.
    rewrite (search_formatted_product_ok _ Hn) in H. injection H as <-.
    cbn in Hk. destruct Hk as [<-|[<-|[<-|[<-|[]]]]];
      (eexists; split; [reflexivity | truthy_field dp]).
Qed.

Lemma resolved_fields_truthy_witness :
  let dp := VDict [("id", VStr "dp-1"); ("title", VNone);
                   ("owner", VList [])] in
  let fields := [("id", VStr "dp-1"); ("name", NA); ("description", NA);
                 ("owner", NA)] in
  list_formatted_product dp = Ok (VDict fields)
  /\ exists x, dict_lookup fields "owner" = Some x /\ truthy x = true.
Proof.
  intros dp fields. split; [reflexivity|].
  apply (proj1 (resolved_fields_truthy dp fields) eq_refl "owner").
  cbn. auto.
Defined.

Lemma search_record_name_and_id (dp : value) :
  is_dict dp = true -> name_and_id_from_top_level dp (search_record dp).
Proof.
  destruct dp as [| | | | | |d]; try discriminate. intros _.
  exists d. eexists. split; [reflexivity|]. split; [reflexivity|].
  cbn. unfold value_or_NA. split.
  - now destruct (dict_lookup d "name").
  - now destruct (dict_lookup d "id").
Qed.

(** X9: in the records [dataproduct_search] returns, [name] comes from
    the top-level [name] key alone ([title] and [info.title] are not
    candidates there), and [id] is defaulted on presence like the [id] of
    a listed record.  This holds of every record the loop body builds,
    and of the output of the tool for every [results] sequence it
    normalizes. *)
Theorem search_name_and_id :
  (forall d out,
      search_formatted_product (VDict d) = Ok out ->
      name_and_id_from_top_level (VDict d) out)
  /\ (forall c term response dps,
      search c term "DATA_PRODUCT" = Ok (VDict response) ->
      dict_lookup response "results" = Some (VList dps) ->
      forallb search_normalizes dps = true ->
      exists outs,
        outcome (dataproduct_search (Ok c) term) = Ok (VList outs)
        /\ Forall2 name_and_id_from_top_level dps outs).
Proof.
  split.
  - intros d out H.
    destruct (search_normalizes (VDict d)) eqn:Hn.
    + rewrite (search_formatted_product_ok _ Hn) in H. injection H as <-.
      now apply search_record_name_and_id.
    + now rewrite (search_formatted_product_raise _ Hn) in H.
  - intros c term response dps Hc Hr Hn.
    exists (map search_record dps). split.
    + rewrite (dataproduct_search_loop _ _ _ _ Hc Hr).
      destruct dps as [|dp rest]; [reflexivity|].
      cbn [truthy]. now rewrite (for_each_search_ok _ Hn).
    + apply (Forall2_map_of _ _ search_normalizes); [|exact Hn].
      intros dp Hdp. apply search_record_name_and_id.
      now apply search_normalizes_dict.
Qed.

Lemma search_name_and_id_witness :
  let dp := VDict [("title", VStr "Sales Data");
                   ("info", VDict [("title", VStr "Sales Data")])] in
  let c := constant_client (Ok (VDict [("results", VList [dp])])) in
  outcome (dataproduct_search (Ok c) "sales")
  = Ok (VList [VDict [("id", NA); ("name", NA); ("description", NA);
                      ("ownerId", NA); ("ownerName", NA)]])
  /\ exists outs,
      outcome (dataproduct_search (Ok c) "sales") = Ok (VList outs)
      /\ Forall2 name_and_id_from_top_level [dp] outs.
Proof.
  intros dp c. split; [reflexivity|].
  exact (proj2 search_name_and_id c "sales" [("results", VList [dp])] [dp]
           eq_refl eq_refl eq_refl).
Defined.

(** X10: values the client delivers at the top level shadow [info]: when
    [title], [description] and [owner] are all present and truthy, the
    record is normalized to exactly these values and [info] is not looked
    at, whatever it holds (even a value that is no mapping). *)
Theorem top_level_values_shadow_info
        (d : list (string * value)) (title description owner : value) :
  dict_lookup d "title" = Some title -> truthy title = true ->
  dict_lookup d "description" = Some description ->
  truthy description = true ->
  dict_lookup d "owner" = Some owner -> truthy owner = true ->
  list_formatted_product (VDict d)
  = Ok (VDict [("id", present_or_NA (dict_lookup d "id"));
               ("name", title); ("description", description);
               ("owner", owner)]).
Proof.
  intros Ht Htt Hd Hdt Ho Hot.
  rewrite list_formatted_product_ok.
  - unfold list_record. cbn [first_nonempty lookup_path].
    rewrite Ht, Htt, Hd, Hdt, Ho, Hot.
    now destruct (dict_lookup d "id").
  - cbn [list_normalizes]. unfold falls_through.
    rewrite Ht, Htt, Hd, Hdt, Ho, Hot. apply orb_true_r.
Qed.

Lemma top_level_values_shadow_info_witness :
  list_formatted_product
    (VDict [("title", VStr "Sales Data"); ("description", VStr "All sales");
            ("owner", VStr "team-a"); ("info", VNone)])
  = Ok (VDict [("id", NA); ("name", VStr "Sales Data");
               ("description", VStr "All sales"); ("owner", VStr "team-a")]).
Proof.
  exact (top_level_values_shadow_info
           [("title", VStr "Sales Data"); ("description", VStr "All sales");
            ("owner", VStr "team-a"); ("info", VNone)]
           (VStr "Sales Data") (VStr "All sales") (VStr "team-a")
           eq_refl eq_refl eq_refl eq_refl eq_refl eq_refl).
Defined.

(** ** Results that are not a sequence of records *)

(** X11: every falsy result counts as no results: [dataproduct_list]
    returns the empty list when the client returns any falsy value
    ([None], an empty mapping, an empty string, zero), and
    [dataproduct_search] when the [results] entry of the response is any
    falsy value. *)
Theorem falsy_results_empty_list (c : DataMeshManagerClient) (v : value) :
  truthy v = false ->
  (forall st ar s,
      get_data_products c st ar s = Ok v ->
      outcome (dataproduct_list (Ok c) st ar s) = Ok (VList []))
  /\ (forall term response,
      search c term "DATA_PRODUCT" = Ok (VDict response) ->
      dict_lookup response "results" = Some v ->
      outcome (dataproduct_search (Ok c) term) = Ok (VList [])).
Proof.
  intros Hv. split.
  - intros st ar s Hc. rewrite dataproduct_list_outcome.
    cbn [bind Monad_result]. now rewrite Hc, Hv.
  - intros term response Hc Hr. rewrite dataproduct_search_outcome.
    cbn [bind Monad_result]. rewrite Hc. cbn [get]. now rewrite Hr, Hv.
Qed.

Lemma falsy_results_empty_list_witness :
  outcome (dataproduct_list (Ok (constant_client (Ok VNone))) None None None)
  = Ok (VList [])
  /\ outcome (dataproduct_search
                (Ok (constant_client (Ok (VDict [("results", VNone)]))))
                "sales")
     = Ok (VList []).
Proof.
  split.
  - apply (proj1 (falsy_results_empty_list _ VNone eq_refl)). reflexivity.
  - apply (proj2 (falsy_results_empty_list _ VNone eq_refl) "sales"
             [("results", VNone)]); reflexivity.
Defined.

(** X12: a truthy result of the listing that is no list of records ends
    in an error marker: a number or [True] is not iterable; a mapping or
    a string is iterated by keys or characters, which are strings and
    have no [get]. *)
Theorem unusable_listing_rendered
        (c : DataMeshManagerClient) (st ar s : option string) (v : value) :
  get_data_products c st ar s = Ok v -> truthy v = true ->
  match v with
  | VList _ => True
  | VDict _ | VStr _ =>
      outcome (dataproduct_list (Ok c) st ar s)
      = Ok (error_record
              "Error fetching data products: 'str' object has no attribute 'get'")
  | _ =>
      outcome (dataproduct_list (Ok c) st ar s)
      = Ok (error_record ("Error fetching data products: '" ++ type_name v
                          ++ "' object is not iterable"))
  end.
Proof.
  intros Hc Hv. rewrite dataproduct_list_outcome.
  cbn [bind Monad_result]. rewrite Hc, Hv.
  destruct v as [| b | n | x | str | items | d]; try reflexivity;
    try exact I.
  - destruct str; [discriminate | reflexivity].
  - destruct d as [|[k x] rest]; [discriminate | reflexivity].
Qed.

Lemma unusable_listing_rendered_witness :
  outcome (dataproduct_list
             (Ok (constant_client (Ok (VDict [("error", VStr "denied")]))))
             None None None)
  = Ok (error_record
          "Error fetching data products: 'str' object has no attribute 'get'").
Proof.
  exact (unusable_listing_rendered
           (constant_client (Ok (VDict [("error", VStr "denied")])))
           None None None (VDict [("error", VStr "denied")])
           eq_refl eq_refl).
Defined.

(** X13: a search response that is no mapping cannot be unwrapped:
    [dataproduct_search] returns the error marker that names the type of
    the response. *)
Theorem search_response_not_mapping
        (c : DataMeshManagerClient) (term : string) (v : value) :
  search c term "DATA_PRODUCT" = Ok v -> is_dict v = false ->
  outcome (dataproduct_search (Ok c) term)
  = Ok (error_record ("Error searching data products: '" ++ type_name v
                      ++ "' object has no attribute 'get'")).
Proof.
  intros Hc Hv. rewrite dataproduct_search_outcome.
  cbn [bind Monad_result]. rewrite Hc.
  destruct v; try discriminate; reflexivity.
Qed.

Lemma search_response_not_mapping_witness :
  outcome (dataproduct_search
             (Ok (constant_client (Ok (VList [VDict [("id", VStr "dp-1")]]))))
             "sales")
  = Ok (error_record
          "Error searching data products: 'list' object has no attribute 'get'").
Proof.
  exact (search_response_not_mapping
           (constant_client (Ok (VList [VDict [("id", VStr "dp-1")]])))
           "sales" (VList [VDict [("id", VStr "dp-1")]]) eq_refl eq_refl).
Defined.

(** X14: [dataproduct_search] reads the [results] entry of the response
    and nothing else: two responses with the same [results] entry (or
    both without one) give the same outcome, whatever else they hold. *)
Theorem search_reads_results_only
        (c c' : DataMeshManagerClient) (term : string)
        (response response' : list (string * value)) :
  search c term "DATA_PRODUCT" = Ok (VDict response) ->
  search c' term "DATA_PRODUCT" = Ok (VDict response') ->
  dict_lookup response "results" = dict_lookup response' "results" ->
  outcome (dataproduct_search (Ok c) term)
  = outcome (dataproduct_search (Ok c') term).
Proof.
  intros Hc Hc' Hr. rewrite !dataproduct_search_outcome.
  cbn [bind Monad_result]. rewrite Hc, Hc'. cbn [get]. now rewrite Hr.
Qed.

Lemma search_reads_results_only_witness :
  let dp := VDict [("id", VStr "dp-1")] in
  outcome (dataproduct_search
             (Ok (constant_client
                    (Ok (VDict [("total", VInt 1); ("results", VList [dp])]))))
             "sales")
  = outcome (dataproduct_search
               (Ok (constant_client (Ok (VDict [("results", VList [dp])]))))
               "sales").
Proof.
  intros dp.
  exact (search_reads_results_only
           (constant_client
              (Ok (VDict [("total", VInt 1); ("results", VList [dp])])))
           (constant_client (Ok (VDict [("results", VList [dp])])))
           "sales"
           [("total", VInt 1); ("results", VList [dp])]
           [("results", VList [dp])] eq_refl eq_refl eq_refl).
Defined.

(** ** The first record that cannot be normalized *)

Lemma find_first_bad {A : Type} (ok : A -> bool) (good : list A) (bad : A)
      (rest : list A) :
  forallb ok good = true -> ok bad = false ->
  find (fun x => negb (ok x)) (good ++ bad :: rest) = Some bad.
Proof.
  intros Hg Hb. induction good as [|x good' IH]; cbn.
  - now rewrite Hb.
  - cbn in Hg. apply andb_true_iff in Hg. destruct Hg as [Hx Hg'].
    rewrite Hx. cbn. auto.
Qed.

(** X15: the loop stops at the first record it cannot normalize: when
    the records before it are normalized and it is not, the tool returns
    the error marker for that record, whatever the records behind it are
    (they are not looked at, and the records already built are dropped). *)
Theorem first_bad_record_decides
        (c : DataMeshManagerClient) (good : list value) (bad : value)
        (rest : list value) :
  (forall st ar s,
      get_data_products c st ar s = Ok (VList (good ++ bad :: rest)) ->
      forallb list_normalizes good = true -> list_normalizes bad = false ->
      outcome (dataproduct_list (Ok c) st ar s)
      = Ok (error_record
              (error_message "Error fetching data products: " bad)))
  /\ (forall term response,
      search c term "DATA_PRODUCT" = Ok (VDict response) ->
      dict_lookup response "results" = Some (VList (good ++ bad :: rest)) ->
      forallb search_normalizes good = true ->
      search_normalizes bad = false ->
      outcome (dataproduct_search (Ok c) term)
      = Ok (error_record
              (error_message "Error searching data products: " bad))).
Proof.
  assert (Ht : truthy (VList (good ++ bad :: rest)) = true)
    by now destruct good.
  split.
  - intros st ar s Hc Hg Hb.
    rewrite (dataproduct_list_loop _ _ _ _ _ Hc), Ht.
    rewrite (for_each_find _ _ _ _ list_formatted_product_ok
                           list_formatted_product_raise).
    now rewrite (find_first_bad _ _ _ _ Hg Hb).
  - intros term response Hc Hr Hg Hb.
    rewrite (dataproduct_search_loop _ _ _ _ Hc Hr), Ht.
    rewrite (for_each_find _ _ _ _ search_formatted_product_ok
                           search_formatted_product_raise).
    now rewrite (find_first_bad _ _ _ _ Hg Hb).
Qed.

Lemma first_bad_record_decides_witness :
  let good := [VDict [("id", VStr "dp-1"); ("title", VStr "Sales Data")]] in
  let bad := VStr "dp-2" in
  let rest := [VNone] in
  outcome (dataproduct_list
             (Ok (constant_client (Ok (VList (good ++ bad :: rest)))))
             None None None)
  = Ok (error_record
          "Error fetching data products: 'str' object has no attribute 'get'").
Proof.
  intros good bad rest.
  exact (proj1 (first_bad_record_decides
                  (constant_client (Ok (VList (good ++ bad :: rest))))
                  good bad rest)
           None None None eq_refl eq_refl eq_refl).
Defined.

(** ** The log of a successful listing *)

(** X16: when a non-empty sequence of records is normalized, the tool
    performs, in this order: the line of the invocation with its
    arguments, the construction of the client, one request, and a final
    line that reports as many data products as the client returned
    records; no error line is written. *)
Theorem success_trace (c : DataMeshManagerClient) (dps : list value) :
  dps <> [] ->
  (forall st ar s,
      get_data_products c st ar s = Ok (VList dps) ->
      forallb list_normalizes dps = true ->
      events (dataproduct_list (Ok c) st ar s)
      = [Log_info ("dataproduct_list called with search_term=" ++ fmt_opt st
                   ++ ", archetype=" ++ fmt_opt ar
                   ++ ", status=" ++ fmt_opt s);
         Client_new;
         Client_call "get_data_products";
         Log_info ("dataproduct_list returned " ++ fmt_nat (length dps)
                   ++ " data products")])
  /\ (forall term response,
      search c term "DATA_PRODUCT" = Ok (VDict response) ->
      dict_lookup response "results" = Some (VList dps) ->
      forallb search_normalizes dps = true ->
      events (dataproduct_search (Ok c) term)
      = [Log_info ("dataproduct_search called with search_term=" ++ term);
         Client_new;
         Client_call "search";
         Log_info ("dataproduct_search returned " ++ fmt_nat (length dps)
                   ++ " data products")]).
Proof.
  intros Hne.
  assert (Ht : truthy (VList dps) = true)
    by (destruct dps; [now elim Hne | reflexivity]).
  split.
  - intros st ar s Hc Hn. unfold dataproduct_list, events.
    cbn. rewrite Hc. cbn -[truthy]. rewrite Ht. cbn.
    rewrite (for_each_list_ok _ Hn). cbn. now rewrite length_map.
  - intros term response Hc Hr Hn. unfold dataproduct_search, events.
    cbn. rewrite Hc. cbn -[truthy]. rewrite Hr. cbn -[truthy].
    rewrite Ht. cbn.
    rewrite (for_each_search_ok _ Hn). cbn. now rewrite length_map.
Qed.

Lemma success_trace_witness :
  let dps := [VDict [("id", VStr "dp-1")]; VDict [("id", VStr "dp-2")]] in
  events (dataproduct_list (Ok (constant_client (Ok (VList dps))))
            (Some "sales") None None)
  = [Log_info "dataproduct_list called with search_term=sales, archetype=None, status=None";
     Client_new;
     Client_call "get_data_products";
     Log_info "dataproduct_list returned 2 data products"].
Proof.
  intros dps.
  assert (Hne : dps <> []) by discriminate.
  exact (proj1 (success_trace (constant_client (Ok (VList dps))) dps Hne)
           (Some "sales") None None eq_refl eq_refl).
Defined.
